(** * VSmesh prototypes: a shallow embedding of [Main.py] and [Mainport.py]

    [Mainport.py] is the tkinter/customtkinter prototype (tabbed notebook,
    menu, placeholder [.vsm1] archive); [Main.py] is the PySide6 prototype
    (one canvas and two docks).  Both share the pan/zoom arithmetic of
    [InfiniteGrid].

    Python floats are IEEE binary64 numbers and are modelled by Rocq's
    primitive floats; Python integers by [Z]; [str] by [string], a text
    being held as its UTF-8 bytes. *)

From Stdlib Require Import ZArith List String Ascii Bool Floats Lia.
From Stdlib Require Import DecimalString DecimalNat.
Import ListNotations.

Set Warnings "-inexact-float".

(* ===================================================================== *)
(** * The Python values and control flow both programs rely on *)
(* ===================================================================== *)

Module Py.

(** Exceptions that the modelled code paths can raise. *)
Inductive exn :=
| ValueError
| OverflowError
| AttributeError (attr : string)
| UnicodeDecodeError
| BadZipFile
| KeyError (key : string)
| StructError
| OSError.

(** Outcome of a call: a value, or a raised exception. *)
Inductive res (A : Type) :=
| Ok (a : A)
| Raise (e : exn).
Arguments Ok {A} a.
Arguments Raise {A} e.

Definition raised {A} (r : res A) : bool :=
  match r with Ok _ => false | Raise _ => true end.

(** A method that mutates an object of type [S]: attribute writes made
    before an exception is raised stay in place. *)
Definition M (S A : Type) : Type := S -> res A * S.

Definition ret {S A} (a : A) : M S A := fun s => (Ok a, s).

Definition bind {S A B} (m : M S A) (k : A -> M S B) : M S B :=
  fun s =>
    match m s with
    | (Ok a, s') => k a s'
    | (Raise e, s') => (Raise e, s')
    end.

Definition get {S} : M S S := fun s => (Ok s, s).
Definition modify {S} (f : S -> S) : M S unit := fun s => (Ok tt, f s).
Definition raise {S A} (e : exn) : M S A := fun s => (Raise e, s).

(** [lift r]: use the outcome of a computation that touches no state. *)
Definition lift {S A} (r : res A) : M S A := fun s => (r, s).

(** [try: m except Exception as e: h e] *)
Definition try_except {S A} (m : M S A) (h : exn -> M S A) : M S A :=
  fun s =>
    match m s with
    | (Ok a, s') => (Ok a, s')
    | (Raise e, s') => h e s'
    end.

(** [for x in xs: body x] *)
Fixpoint for_each {S X} (xs : list X) (body : X -> M S unit) : M S unit :=
  match xs with
  | [] => ret tt
  | x :: rest => bind (body x) (fun _ => for_each rest body)
  end.

(** State left behind by a call, whether it returned or raised. *)
Definition exec {S A} (m : M S A) (s : S) : S := snd (m s).

Declare Scope py_scope.
Delimit Scope py_scope with py.
Notation "x <- m ;; k" := (bind m (fun x => k))
  (at level 61, m at next level, right associativity) : py_scope.
Notation "m ;; k" := (bind m (fun _ => k))
  (at level 61, right associativity) : py_scope.

(** ** Numbers *)

(** [float(z)] for an integer of at most 63 bits (every integer the two
    programs convert is far below that). *)
Definition float_of_Z (z : Z) : float :=
  if (z <? 0)%Z
  then PrimFloat.opp (PrimFloat.of_uint63 (Uint63.of_Z (- z)))
  else PrimFloat.of_uint63 (Uint63.of_Z z).

(** [int(f)]: truncation towards zero; infinities and NaN raise. *)
Definition int_of_float (f : float) : res Z :=
  match Prim2SF f with
  | S754_zero _ => Ok 0%Z
  | S754_finite s m e =>
      let mag := if (0 <=? e)%Z
                 then (Z.pos m * 2 ^ e)%Z
                 else (Z.pos m / 2 ^ (- e))%Z in
      Ok (if s then (- mag)%Z else mag)
  | S754_infinity _ => Raise OverflowError
  | S754_nan => Raise ValueError
  end.

(** [list(range(a, b, step))]; a zero step raises [ValueError]. *)
Definition range (a b step : Z) : res (list Z) :=
  if (step =? 0)%Z then Raise ValueError
  else
    let n := if (0 <? step)%Z
             then ((b - a + step - 1) / step)%Z
             else ((a - b - step - 1) / (- step))%Z in
    Ok (map (fun i => (a + Z.of_nat i * step)%Z) (seq 0 (Z.to_nat n))).

(** A value that is an [int] or a [float], as produced by mixed
    arithmetic. *)
Inductive num :=
| Int (z : Z)
| Float (f : float).

Definition to_float (a : num) : float :=
  match a with Int z => float_of_Z z | Float f => f end.

(** [a - b]: stays an [int] only when both operands are. *)
Definition sub (a b : num) : num :=
  match a, b with
  | Int x, Int y => Int (x - y)
  | _, _ => Float (PrimFloat.sub (to_float a) (to_float b))
  end.

(** [a < b] and [a <= b].  Python compares an [int] with a [float] by
    value; for the integers met here (below 2^53) that is the float
    comparison after conversion. *)
Definition lt (a b : num) : bool :=
  match a, b with
  | Int x, Int y => (x <? y)%Z
  | _, _ => PrimFloat.ltb (to_float a) (to_float b)
  end.

Definition le (a b : num) : bool :=
  match a, b with
  | Int x, Int y => (x <=? y)%Z
  | _, _ => PrimFloat.leb (to_float a) (to_float b)
  end.

(** [min(a, b)] returns [a] unless [b < a]; [max(a, b)] returns [a]
    unless [b > a]. *)
Definition min (a b : num) : num := if lt b a then b else a.
Definition max (a b : num) : num := if lt a b then b else a.

Definition is_nan (a : num) : bool :=
  match a with Int _ => false | Float f => PrimFloat.is_nan f end.

(** The same two builtins on integers only. *)
Definition zmin (a b : Z) : Z := if (b <? a)%Z then b else a.
Definition zmax (a b : Z) : Z := if (a <? b)%Z then b else a.

(** ** Strings *)

(** [str(n)] for a natural number. *)
Definition str_of_nat (n : nat) : string :=
  NilEmpty.string_of_uint (Nat.to_uint n).

(** [s.replace(old, new)] for a non-empty [old]: occurrences are found
    left to right and do not overlap.  [skip] counts the characters of
    the occurrence just matched that remain to be dropped. *)
Fixpoint replace_from (skip : nat) (old new s : string) : string :=
  match s with
  | EmptyString => EmptyString
  | String c s' =>
      match skip with
      | S k => replace_from k old new s'
      | O =>
          if String.prefix old s
          then append new (replace_from (String.length old - 1) old new s')
          else String c (replace_from 0 old new s')
      end
  end.

Definition replace (old new s : string) : string := replace_from 0 old new s.


(** ** Dictionaries with string keys

    A [dict] keeps its keys in insertion order; storing under a key that
    is already present overwrites the value and keeps the position. *)
Definition dict (V : Type) : Type := list (string * V).

Fixpoint setitem {V} (k : string) (v : V) (d : dict V) : dict V :=
  match d with
  | [] => [(k, v)]
  | (k', v') :: d' =>
      if String.eqb k' k then (k', v) :: d' else (k', v') :: setitem k v d'
  end.

Fixpoint getitem {V} (k : string) (d : dict V) : option V :=
  match d with
  | [] => None
  | (k', v') :: d' => if String.eqb k' k then Some v' else getitem k d'
  end.

Definition keys {V} (d : dict V) : list string := map fst d.

End Py.

(* ===================================================================== *)
(** * Mainport.py: the tkinter prototype *)
(* ===================================================================== *)

Module Mainport.
Import Py.
Local Open Scope py_scope.
Local Open Scope string_scope.

(** ** class InfiniteGrid(ctk.CTkCanvas) *)

(** A canvas item made by [create_line(x1, y1, x2, y2, tags="grid")]. *)
Record Line := { x1 : Z; y1 : Z; x2 : Z; y2 : Z }.

(** The fields of a tkinter event that the handlers read. *)
Record Event := { x : Z; y : Z; delta : Z }.

Record InfiniteGrid := {
  master : nat;                       (* the frame the canvas lives in *)
  scale_factor : float;
  max_scale_factor : float;
  min_scale_factor : float;
  grid_size : Z;
  pan_offset_x : Z;
  pan_offset_y : Z;
  pan_limit_x : Z;
  pan_limit_y : Z;
  last_mouse_pos : option (Z * Z);    (* [None] is Python's None *)
  cursor : string;
  items : list Line                   (* the canvas items tagged "grid" *)
}.

Definition set_scale_factor (v : float) (g : InfiniteGrid) : InfiniteGrid :=
  {| master := master g; scale_factor := v;
     max_scale_factor := max_scale_factor g;
     min_scale_factor := min_scale_factor g; grid_size := grid_size g;
     pan_offset_x := pan_offset_x g; pan_offset_y := pan_offset_y g;
     pan_limit_x := pan_limit_x g; pan_limit_y := pan_limit_y g;
     last_mouse_pos := last_mouse_pos g; cursor := cursor g;
     items := items g |}.

Definition set_pan_offset_x (v : Z) (g : InfiniteGrid) : InfiniteGrid :=
  {| master := master g; scale_factor := scale_factor g;
     max_scale_factor := max_scale_factor g;
     min_scale_factor := min_scale_factor g; grid_size := grid_size g;
     pan_offset_x := v; pan_offset_y := pan_offset_y g;
     pan_limit_x := pan_limit_x g; pan_limit_y := pan_limit_y g;
     last_mouse_pos := last_mouse_pos g; cursor := cursor g;
     items := items g |}.

Definition set_pan_offset_y (v : Z) (g : InfiniteGrid) : InfiniteGrid :=
  {| master := master g; scale_factor := scale_factor g;
     max_scale_factor := max_scale_factor g;
     min_scale_factor := min_scale_factor g; grid_size := grid_size g;
     pan_offset_x := pan_offset_x g; pan_offset_y := v;
     pan_limit_x := pan_limit_x g; pan_limit_y := pan_limit_y g;
     last_mouse_pos := last_mouse_pos g; cursor := cursor g;
     items := items g |}.

Definition set_last_mouse_pos (v : option (Z * Z)) (g : InfiniteGrid)
  : InfiniteGrid :=
  {| master := master g; scale_factor := scale_factor g;
     max_scale_factor := max_scale_factor g;
     min_scale_factor := min_scale_factor g; grid_size := grid_size g;
     pan_offset_x := pan_offset_x g; pan_offset_y := pan_offset_y g;
     pan_limit_x := pan_limit_x g; pan_limit_y := pan_limit_y g;
     last_mouse_pos := v; cursor := cursor g; items := items g |}.

Definition set_cursor (v : string) (g : InfiniteGrid) : InfiniteGrid :=
  {| master := master g; scale_factor := scale_factor g;
     max_scale_factor := max_scale_factor g;
     min_scale_factor := min_scale_factor g; grid_size := grid_size g;
     pan_offset_x := pan_offset_x g; pan_offset_y := pan_offset_y g;
     pan_limit_x := pan_limit_x g; pan_limit_y := pan_limit_y g;
     last_mouse_pos := last_mouse_pos g; cursor := v; items := items g |}.

Definition set_items (v : list Line) (g : InfiniteGrid) : InfiniteGrid :=
  {| master := master g; scale_factor := scale_factor g;
     max_scale_factor := max_scale_factor g;
     min_scale_factor := min_scale_factor g; grid_size := grid_size g;
     pan_offset_x := pan_offset_x g; pan_offset_y := pan_offset_y g;
     pan_limit_x := pan_limit_x g; pan_limit_y := pan_limit_y g;
     last_mouse_pos := last_mouse_pos g; cursor := cursor g; items := v |}.

(** [self.create_line(...)] for every coordinate of a range. *)
Definition create_lines (ls : list Line) : M InfiniteGrid unit :=
  modify (fun g => set_items (items g ++ ls) g).

Definition draw_grid : M InfiniteGrid unit :=
  modify (set_items []) ;;                          (* self.delete("grid") *)
  g <- get ;;
  step <- lift (int_of_float
                  (PrimFloat.mul (float_of_Z (grid_size g)) (scale_factor g))) ;;
  xs <- lift (range (pan_offset_x g - pan_limit_x g)
                    (pan_offset_x g + pan_limit_x g) step) ;;
  create_lines
    (map (fun x => {| x1 := x; y1 := - pan_limit_y g;
                      x2 := x; y2 := pan_limit_y g |}) xs) ;;
  ys <- lift (range (pan_offset_y g - pan_limit_y g)
                    (pan_offset_y g + pan_limit_y g) step) ;;
  create_lines
    (map (fun y => {| x1 := - pan_limit_x g; y1 := y;
                      x2 := pan_limit_x g; y2 := y |}) ys).

(** The attribute assignments of [__init__], before [draw_grid]. *)
Definition attributes (frame : nat) : InfiniteGrid :=
  {| master := frame;
     scale_factor := 1.0%float;
     max_scale_factor := 0.85%float;
     min_scale_factor := 0.25%float;
     grid_size := 50;
     pan_offset_x := 0;
     pan_offset_y := 0;
     pan_limit_x := 5000;
     pan_limit_y := 5000;
     last_mouse_pos := None;
     cursor := "";
     items := [] |}.

(** [InfiniteGrid(frame, ...)]: the object exists only when [__init__]
    returns. *)
Definition new_grid (frame : nat) : res InfiniteGrid :=
  match draw_grid (attributes frame) with
  | (Ok _, g) => Ok g
  | (Raise e, _) => Raise e
  end.

(** The canvas as the constructor leaves it. *)
Definition built (frame : nat) : InfiniteGrid :=
  exec draw_grid (attributes frame).

Definition wheel_event (event : Event) : M InfiniteGrid unit :=
  g <- get ;;
  let zoom_in_factor := 1.25%float in
  let zoom_out_factor := 0.8%float in
  let zoom_factor :=
    if (0 <? delta event)%Z then zoom_in_factor else zoom_out_factor in
  let new_scale_factor := PrimFloat.mul (scale_factor g) zoom_factor in
  if PrimFloat.leb (min_scale_factor g) new_scale_factor
     && PrimFloat.leb new_scale_factor (max_scale_factor g)
  then modify (set_scale_factor new_scale_factor) ;; draw_grid
  else ret tt.

Definition mouse_press (event : Event) : M InfiniteGrid unit :=
  modify (set_last_mouse_pos (Some (x event, y event))) ;;
  modify (set_cursor "fleur").

Definition mouse_move (event : Event) : M InfiniteGrid unit :=
  g <- get ;;
  match last_mouse_pos g with
  | Some (last_x, last_y) =>
      let dx := (x event - last_x)%Z in
      let dy := (y event - last_y)%Z in
      modify (set_pan_offset_x
                (zmax (zmin (pan_offset_x g + dx) (pan_limit_x g))
                      (- pan_limit_x g))) ;;
      modify (set_pan_offset_y
                (zmax (zmin (pan_offset_y g + dy) (pan_limit_y g))
                      (- pan_limit_y g))) ;;
      draw_grid ;;
      modify (set_last_mouse_pos (Some (x event, y event)))
  | None => ret tt
  end.

Definition mouse_release (event : Event) : M InfiniteGrid unit :=
  modify (set_cursor "arrow") ;;
  modify (set_last_mouse_pos None).

(** The four bindings made in [__init__]. *)
Inductive Binding :=
| ButtonPress1
| B1Motion
| ButtonRelease1
| MouseWheel.

Definition handler (b : Binding) : Event -> M InfiniteGrid unit :=
  match b with
  | ButtonPress1 => mouse_press
  | B1Motion => mouse_move
  | ButtonRelease1 => mouse_release
  | MouseWheel => wheel_event
  end.

(** tkinter reports an exception raised by a callback and carries on, so
    a delivered event leaves the canvas in the state the handler reached. *)
Definition deliver (g : InfiniteGrid) (be : Binding * Event) : InfiniteGrid :=
  exec (handler (fst be) (snd be)) g.

Definition deliver_all (g : InfiniteGrid) (evs : list (Binding * Event))
  : InfiniteGrid :=
  fold_left deliver evs g.

(** [min_scale_factor <= scale_factor <= max_scale_factor] *)
Definition zoom_in_bounds (g : InfiniteGrid) : bool :=
  PrimFloat.leb (min_scale_factor g) (scale_factor g)
  && PrimFloat.leb (scale_factor g) (max_scale_factor g).

(** [-pan_limit <= pan_offset <= pan_limit] on both axes. *)
Definition pan_in_bounds (g : InfiniteGrid) : Prop :=
  (- pan_limit_x g <= pan_offset_x g <= pan_limit_x g)%Z /\
  (- pan_limit_y g <= pan_offset_y g <= pan_limit_y g)%Z.

(** The limits are never negative and the offsets respect them. *)
Definition pan_ok (g : InfiniteGrid) : Prop :=
  (0 <= pan_limit_x g)%Z /\ (0 <= pan_limit_y g)%Z /\ pan_in_bounds g.

(** ** class MainWindow(ctk.CTk) *)

(** Every widget built by [add_tab] is kept in one store; a widget is
    referred to by its index there, so that the notebook and [self.tabs]
    can point at the same objects. *)
Inductive Widget :=
| PageFrame                               (* ctk.CTkFrame(self.notebook) *)
| Panel (frame : nat) (column : Z)        (* side panel gridded in a page *)
| Textbox (panel : nat) (text : string)   (* its textbox, and the text given to insert *)
| Canvas (g : InfiniteGrid).              (* the page's InfiniteGrid *)

(** The value stored under a tab name:
    [{"grid": ..., "left_panel": ..., "right_panel": ...}]. *)
Record TabData := { grid : nat; left_panel : nat; right_panel : nat }.

(** What a menu entry calls. *)
Inductive Command :=
| NewScript
| SaveAs
| LoadFile
| GenerateCode (language : string).

Record MainWindow := {
  title : string;
  geometry : string;
  widgets : list Widget;
  notebook : list (nat * string);     (* pages: frame and tab text *)
  tabs : dict TabData;
  menu : list (string * list (string * Command))
}.

(** *** What the window talks to: standard output, message boxes, file
    dialogs and the files on disk. *)

(** The bytes of an archive member, told apart by what
    [decode('utf-8')] makes of them. *)
Inductive Bytes :=
| Utf8 (text : string)
| NotUtf8.

(** An archive member: readable bytes, or data that [read] rejects. *)
Inductive Member :=
| Stored (b : Bytes)
| Damaged.

Inductive File :=
| NotZip
| Zip (members : list (string * Member)).

Inductive MessageBox :=
| ShowInfo (box_title message : string)
| ShowError (box_title message : string) (e : exn).  (* message ends with str(e) *)

Record World := {
  stdout : list string;           (* lines printed so far *)
  boxes : list MessageBox;        (* message boxes shown so far *)
  dialog : list string;           (* what the coming file dialogs return *)
  files : dict File;
  readonly : list string          (* paths that cannot be opened for writing *)
}.

Record App := { win : MainWindow; world : World }.

Definition set_win (f : MainWindow -> MainWindow) (a : App) : App :=
  {| win := f (win a); world := world a |}.

Definition set_world (f : World -> World) (a : App) : App :=
  {| win := win a; world := f (world a) |}.

Definition set_widgets (v : list Widget) (w : MainWindow) : MainWindow :=
  {| title := title w; geometry := geometry w; widgets := v;
     notebook := notebook w; tabs := tabs w; menu := menu w |}.

Definition set_notebook (v : list (nat * string)) (w : MainWindow)
  : MainWindow :=
  {| title := title w; geometry := geometry w; widgets := widgets w;
     notebook := v; tabs := tabs w; menu := menu w |}.

Definition set_tabs (v : dict TabData) (w : MainWindow) : MainWindow :=
  {| title := title w; geometry := geometry w; widgets := widgets w;
     notebook := notebook w; tabs := v; menu := menu w |}.

Definition set_menu (v : list (string * list (string * Command)))
  (w : MainWindow) : MainWindow :=
  {| title := title w; geometry := geometry w; widgets := widgets w;
     notebook := notebook w; tabs := tabs w; menu := v |}.

Definition set_stdout (v : list string) (w : World) : World :=
  {| stdout := v; boxes := boxes w; dialog := dialog w; files := files w;
     readonly := readonly w |}.

Definition set_boxes (v : list MessageBox) (w : World) : World :=
  {| stdout := stdout w; boxes := v; dialog := dialog w; files := files w;
     readonly := readonly w |}.

Definition set_dialog (v : list string) (w : World) : World :=
  {| stdout := stdout w; boxes := boxes w; dialog := v; files := files w;
     readonly := readonly w |}.

Definition set_files (v : dict File) (w : World) : World :=
  {| stdout := stdout w; boxes := boxes w; dialog := dialog w; files := v;
     readonly := readonly w |}.

(** [print(line)] *)
Definition print (line : string) : M App unit :=
  modify (set_world (fun w => set_stdout (stdout w ++ [line]) w)).

Definition showinfo (t m : string) : M App unit :=
  modify (set_world (fun w => set_boxes (boxes w ++ [ShowInfo t m]) w)).

Definition showerror (t m : string) (e : exn) : M App unit :=
  modify (set_world (fun w => set_boxes (boxes w ++ [ShowError t m e]) w)).

(** [filedialog.asksaveasfilename(...)] and [askopenfilename(...)]: the
    next answer of the user, the empty string when the dialog is
    cancelled. *)
Definition ask_filename : M App string :=
  a <- get ;;
  match dialog (world a) with
  | [] => ret ""
  | answer :: rest =>
      modify (set_world (set_dialog rest)) ;; ret answer
  end.

(** [zipfile.ZipFile(file_path, 'w', zipfile.ZIP_DEFLATED)]: the file is
    created, or emptied when it exists. *)
Definition zip_create (file_path : string) : M App unit :=
  a <- get ;;
  if existsb (String.eqb file_path) (readonly (world a))
  then raise OSError
  else modify (set_world
                 (fun w => set_files (setitem file_path (Zip []) (files w)) w)).

(** [ZipInfo(filename)] keeps a member name up to its first NUL byte.
    Names are held here as the bytes that zipfile writes for them. *)
Fixpoint zipinfo_name (name : string) : string :=
  match name with
  | EmptyString => EmptyString
  | String c rest =>
      if Ascii.eqb c Ascii.zero then EmptyString
      else String c (zipinfo_name rest)
  end.

(** The header of an archive member holds the length of its name in 16
    bits. *)
Definition max_name_length : Z := 65535.

(** [vsm1_file.writestr(name, data)] on the archive open at [file_path].
    Packing the header of a member whose name is longer than 65535 bytes
    raises [struct.error]; nothing is written for that member, and the
    members written before it stay in the archive. *)
Definition writestr (file_path name data : string) : M App unit :=
  let filename := zipinfo_name name in
  if (max_name_length <? Z.of_nat (String.length filename))%Z
  then raise StructError
  else
    modify (set_world (fun w =>
      match getitem file_path (files w) with
      | Some (Zip members) =>
          set_files
            (setitem file_path
                     (Zip (members ++ [(filename, Stored (Utf8 data))]))
                     (files w)) w
      | _ => w
      end)).

(** A member name that [writestr] stores as it is: no NUL byte, and short
    enough for the header. *)
Definition zip_safe (name : string) : bool :=
  String.eqb (zipinfo_name name) name
  && (Z.of_nat (String.length name) <=? max_name_length)%Z.

(** [zipfile.ZipFile(file_path, 'r')] *)
Definition zip_open (file_path : string) : M App (list (string * Member)) :=
  a <- get ;;
  match getitem file_path (files (world a)) with
  | None => raise OSError
  | Some NotZip => raise BadZipFile
  | Some (Zip members) => ret members
  end.

Definition namelist (members : list (string * Member)) : list string :=
  map fst members.

(** [vsm1_file.read(name)]: the last member stored under that name. *)
Definition read (members : list (string * Member)) (name : string)
  : res Bytes :=
  match find (fun m => String.eqb (fst m) name) (rev members) with
  | Some (_, Stored b) => Ok b
  | Some (_, Damaged) => Raise BadZipFile
  | None => Raise (KeyError name)
  end.

(** [data.decode('utf-8')] *)
Definition decode (b : Bytes) : res string :=
  match b with
  | Utf8 text => Ok text
  | NotUtf8 => Raise UnicodeDecodeError
  end.

(** *** The methods *)

(** Put a newly built widget in the store and return its reference. *)
Definition alloc (w : Widget) : M App nat :=
  a <- get ;;
  modify (set_win (set_widgets (widgets (win a) ++ [w]))) ;;
  ret (List.length (widgets (win a))).

Definition add_tab (name : string) : M App unit :=
  frame <- alloc PageFrame ;;
  modify (set_win (fun w => set_notebook (notebook w ++ [(frame, name)]) w)) ;;
  left_panel <- alloc (Panel frame 0) ;;
  _ <- alloc (Textbox left_panel "Left Panel: Functions and Variables") ;;
  right_panel <- alloc (Panel frame 2) ;;
  _ <- alloc (Textbox right_panel "Right Panel: Generated Code") ;;
  g <- lift (new_grid frame) ;;
  grid_view <- alloc (Canvas g) ;;
  modify (set_win (fun w =>
    set_tabs (setitem name {| grid := grid_view; left_panel := left_panel;
                              right_panel := right_panel |} (tabs w)) w)).

Definition create_menu : M App unit :=
  modify (set_win (set_menu
    [ ("File", [ ("New Script", NewScript);
                 ("Save As...", SaveAs);
                 ("Load", LoadFile) ]);
      ("Generate Code", [ ("GDScript", GenerateCode "GDScript");
                          ("Python", GenerateCode "Python") ]) ])).

Definition generate_code (language : string) : M App unit :=
  print ("Generated " ++ language ++ " code.").

(** The [try] block of [save_to_vsm1]. *)
Definition saving (file_path : string) : M App unit :=
  zip_create file_path ;;
  a <- get ;;
  for_each (tabs (win a))
    (fun item =>
       let tab_name := fst item in
       let grid_content := "Generated code for " ++ tab_name ++ "." in
       writestr file_path (tab_name ++ ".vs") grid_content) ;;
  showinfo "Save" "File saved successfully.".

Definition save_to_vsm1 (file_path : string) : M App unit :=
  try_except (saving file_path)
             (fun e => showerror "Error" "Error saving file: " e).

Definition save_as : M App unit :=
  file_path <- ask_filename ;;
  if String.eqb file_path "" then ret tt else save_to_vsm1 file_path.

(** [vsm1_file.read(file_name).decode('utf-8')] *)
Definition fetch (vsm1_file : list (string * Member)) (file_name : string)
  : res string :=
  match read vsm1_file file_name with
  | Ok data => decode data
  | Raise e => Raise e
  end.

(** One turn of the loop of [load_from_vsm1]. *)
Definition load_member (vsm1_file : list (string * Member))
  (file_name : string) : M App unit :=
  data <- lift (read vsm1_file file_name) ;;
  script_data <- lift (decode data) ;;
  add_tab (replace ".vs" "" file_name) ;;
  print ("Loaded " ++ file_name ++ ": " ++ script_data).

(** The [try] block of [load_from_vsm1]. *)
Definition loading (file_path : string) : M App unit :=
  vsm1_file <- zip_open file_path ;;
  for_each (namelist vsm1_file) (load_member vsm1_file) ;;
  showinfo "Load" "File loaded successfully.".

Definition load_from_vsm1 (file_path : string) : M App unit :=
  try_except (loading file_path)
             (fun e => showerror "Error" "Error loading file: " e).

Definition load_file : M App unit :=
  file_path <- ask_filename ;;
  if String.eqb file_path "" then ret tt else load_from_vsm1 file_path.

Definition new_script : M App unit :=
  a <- get ;;
  add_tab ("Script " ++ str_of_nat (List.length (tabs (win a)) + 1)).

Definition run_command (c : Command) : M App unit :=
  match c with
  | NewScript => new_script
  | SaveAs => save_as
  | LoadFile => load_file
  | GenerateCode language => generate_code language
  end.

(** [MainWindow()]: the constructor, run in a given world. *)
Definition start (w : World) : res unit * App :=
  (add_tab "Script 1" ;; create_menu)
    {| win := {| title := "VSmesh: Visual Scripting Modular Extensible System for Holography";
                 geometry := "1200x800";
                 widgets := []; notebook := []; tabs := []; menu := [] |};
       world := w |}.

Definition empty_world : World :=
  {| stdout := []; boxes := []; dialog := []; files := []; readonly := [] |}.

(** *** The running application *)

Fixpoint set_nth {A} (n : nat) (v : A) (l : list A) : list A :=
  match l, n with
  | [], _ => []
  | _ :: l', O => v :: l'
  | a :: l', S n' => a :: set_nth n' v l'
  end.

(** What the user can do: pick a menu entry, or act on the canvas held at
    a given reference. *)
Inductive Action :=
| Pick (c : Command)
| OnCanvas (ref : nat) (b : Binding) (event : Event).

Definition perform (act : Action) : M App unit :=
  match act with
  | Pick c => run_command c
  | OnCanvas ref b event =>
      a <- get ;;
      match nth_error (widgets (win a)) ref with
      | Some (Canvas g) =>
          modify (set_win (set_widgets
            (set_nth ref (Canvas (deliver g (b, event))) (widgets (win a)))))
      | _ => ret tt
      end
  end.

Definition run (acts : list Action) (a : App) : App :=
  fold_left (fun s act => exec (perform act) s) acts a.

(** The canvas a tab name stands for. *)
Definition grid_of (name : string) (w : MainWindow) : option InfiniteGrid :=
  match getitem name (tabs w) with
  | Some data =>
      match nth_error (widgets w) (grid data) with
      | Some (Canvas g) => Some g
      | _ => None
      end
  | None => None
  end.


(** Every tab name gives a member name that [writestr] stores as it is. *)
Definition names_fit (names : list string) : bool :=
  forallb (fun name => zip_safe (name ++ ".vs")) names.

(** The tab texts shown by the notebook, in order. *)
Definition tab_texts (w : MainWindow) : list string := map snd (notebook w).

(** The members of the archive found at a path, if there is one. *)
Definition archive_at (file_path : string) (a : App)
  : option (list (string * Member)) :=
  match getitem file_path (files (world a)) with
  | Some (Zip members) => Some members
  | _ => None
  end.

(** The program right after start-up in an empty world. *)
Definition started : App := snd (start empty_world).

(** Save, then load the saved file into the same window. *)
Definition reload (file_path : string) (a : App) : App :=
  exec (load_from_vsm1 file_path) (exec (save_to_vsm1 file_path) a).


(** What a tab holds besides its widgets: the zoom and pan of its
    canvas. *)
Definition content (g : InfiniteGrid) : float * Z * Z :=
  (scale_factor g, pan_offset_x g, pan_offset_y g).

(** Two windows hold the same project: the same tab names, each with
    the same content. *)
Definition same_project (w1 w2 : MainWindow) : Prop :=
  (forall n, In n (keys (tabs w1)) <-> In n (keys (tabs w2))) /\
  (forall n, option_map content (grid_of n w1)
             = option_map content (grid_of n w2)).

(** Each stored tab name stands for the widgets of one notebook page that
    carries the name. *)
Definition tabs_linked (w : MainWindow) : Prop :=
  forall name data,
    getitem name (tabs w) = Some data ->
    exists f g,
      data = {| grid := f + 5; left_panel := f + 1; right_panel := f + 3 |} /\
      In (f, name) (notebook w) /\
      nth_error (widgets w) f = Some PageFrame /\
      nth_error (widgets w) (f + 1) = Some (Panel f 0) /\
      nth_error (widgets w) (f + 3) = Some (Panel f 2) /\
      nth_error (widgets w) (f + 5) = Some (Canvas g) /\
      master g = f.



(** *** Sample inputs *)

Definition at_point (px py : Z) : Event := {| x := px; y := py; delta := 0 |}.
Definition wheel_down : Event := {| x := 0; y := 0; delta := -120 |}.
Definition wheel_up : Event := {| x := 0; y := 0; delta := 120 |}.

(** Two tabs; the canvas of the first one zoomed out and dragged. *)
Definition edited : App :=
  run [Pick NewScript;
       OnCanvas 5 MouseWheel wheel_down;
       OnCanvas 5 ButtonPress1 (at_point 0 0);
       OnCanvas 5 B1Motion (at_point 40 25);
       OnCanvas 5 ButtonRelease1 (at_point 40 25)] started.

Definition world_with (file_path : string) (f : File) : World :=
  {| stdout := []; boxes := []; dialog := [];
     files := [(file_path, f)]; readonly := [] |}.


(** An archive whose second member is not UTF-8 text. *)
Definition half_readable : World :=
  world_with "bad.vsm1"
    (Zip [("A.vs", Stored (Utf8 "a"));
          ("B.vs", Stored NotUtf8);
          ("C.vs", Stored (Utf8 "c"))]).



End Mainport.

(* ===================================================================== *)
(** * Main.py: the PySide6 prototype *)
(* ===================================================================== *)

Module Main.
Import Py.
Local Open Scope py_scope.
Local Open Scope string_scope.

(** ** The Qt values the handlers exchange *)

Record QPoint := { px : Z; py : Z }.
Record QPointF := { fx : float; fy : float }.
Record QRectF := { left : float; top : float; width : float; height : float }.
Record QLineF := { lx1 : float; ly1 : float; lx2 : float; ly2 : float }.

Definition right (r : QRectF) : float := PrimFloat.add (left r) (width r).
Definition bottom (r : QRectF) : float := PrimFloat.add (top r) (height r).

(** [p - q] on [QPointF] *)
Definition qsub (p q : QPointF) : QPointF :=
  {| fx := PrimFloat.sub (fx p) (fx q); fy := PrimFloat.sub (fy p) (fy q) |}.

Inductive MouseButton :=
| NoButton
| LeftButton
| RightButton
| MiddleButton.

Definition is_left (b : MouseButton) : bool :=
  match b with LeftButton => true | _ => false end.

Inductive CursorShape :=
| ArrowCursor
| ClosedHandCursor.

Record QWheelEvent := { angleDelta_y : Z }.

Record QMouseEvent := {
  button : MouseButton;            (* the button that caused the event *)
  buttons : list MouseButton;      (* the buttons held while it happened *)
  position : QPoint                (* event.position().toPoint() *)
}.

(** ** class InfiniteGrid(QGraphicsView) *)

Record InfiniteGrid := {
  scale_factor : float;
  max_scale_factor : float;
  min_scale_factor : float;
  pan_limit_x : Z;
  pan_limit_y : Z;
  last_mouse_pos : option QPoint;  (* [None]: the attribute does not exist yet *)
  (* state kept by Qt *)
  sceneRect : QRectF;
  lines : list QLineF;             (* the lines of self.scene *)
  zoom : float;                    (* product of the self.scale(...) calls *)
  hbar : option num;               (* last value given to horizontalScrollBar().setValue *)
  vbar : option num;               (* last value given to verticalScrollBar().setValue *)
  cursor : CursorShape
}.

Definition set_scale_factor (v : float) (g : InfiniteGrid) : InfiniteGrid :=
  {| scale_factor := v; max_scale_factor := max_scale_factor g;
     min_scale_factor := min_scale_factor g; pan_limit_x := pan_limit_x g;
     pan_limit_y := pan_limit_y g; last_mouse_pos := last_mouse_pos g;
     sceneRect := sceneRect g; lines := lines g; zoom := zoom g;
     hbar := hbar g; vbar := vbar g; cursor := cursor g |}.

Definition set_last_mouse_pos (v : QPoint) (g : InfiniteGrid) : InfiniteGrid :=
  {| scale_factor := scale_factor g; max_scale_factor := max_scale_factor g;
     min_scale_factor := min_scale_factor g; pan_limit_x := pan_limit_x g;
     pan_limit_y := pan_limit_y g; last_mouse_pos := Some v;
     sceneRect := sceneRect g; lines := lines g; zoom := zoom g;
     hbar := hbar g; vbar := vbar g; cursor := cursor g |}.

Definition set_lines (v : list QLineF) (g : InfiniteGrid) : InfiniteGrid :=
  {| scale_factor := scale_factor g; max_scale_factor := max_scale_factor g;
     min_scale_factor := min_scale_factor g; pan_limit_x := pan_limit_x g;
     pan_limit_y := pan_limit_y g; last_mouse_pos := last_mouse_pos g;
     sceneRect := sceneRect g; lines := v; zoom := zoom g;
     hbar := hbar g; vbar := vbar g; cursor := cursor g |}.

Definition set_zoom (v : float) (g : InfiniteGrid) : InfiniteGrid :=
  {| scale_factor := scale_factor g; max_scale_factor := max_scale_factor g;
     min_scale_factor := min_scale_factor g; pan_limit_x := pan_limit_x g;
     pan_limit_y := pan_limit_y g; last_mouse_pos := last_mouse_pos g;
     sceneRect := sceneRect g; lines := lines g; zoom := v;
     hbar := hbar g; vbar := vbar g; cursor := cursor g |}.

Definition set_hbar (v : num) (g : InfiniteGrid) : InfiniteGrid :=
  {| scale_factor := scale_factor g; max_scale_factor := max_scale_factor g;
     min_scale_factor := min_scale_factor g; pan_limit_x := pan_limit_x g;
     pan_limit_y := pan_limit_y g; last_mouse_pos := last_mouse_pos g;
     sceneRect := sceneRect g; lines := lines g; zoom := zoom g;
     hbar := Some v; vbar := vbar g; cursor := cursor g |}.

Definition set_vbar (v : num) (g : InfiniteGrid) : InfiniteGrid :=
  {| scale_factor := scale_factor g; max_scale_factor := max_scale_factor g;
     min_scale_factor := min_scale_factor g; pan_limit_x := pan_limit_x g;
     pan_limit_y := pan_limit_y g; last_mouse_pos := last_mouse_pos g;
     sceneRect := sceneRect g; lines := lines g; zoom := zoom g;
     hbar := hbar g; vbar := Some v; cursor := cursor g |}.

Definition set_cursor (v : CursorShape) (g : InfiniteGrid) : InfiniteGrid :=
  {| scale_factor := scale_factor g; max_scale_factor := max_scale_factor g;
     min_scale_factor := min_scale_factor g; pan_limit_x := pan_limit_x g;
     pan_limit_y := pan_limit_y g; last_mouse_pos := last_mouse_pos g;
     sceneRect := sceneRect g; lines := lines g; zoom := zoom g;
     hbar := hbar g; vbar := vbar g; cursor := v |}.

(** What Qt computes for the view and the handlers only consume: the
    view-to-scene mapping, the current scroll bar values, and whether a
    stored [QPoint] counts as true in a condition. *)
Record Qt := {
  mapToScene : InfiniteGrid -> QPoint -> QPointF;
  horizontal_value : InfiniteGrid -> Z;
  vertical_value : InfiniteGrid -> Z;
  truth : QPoint -> bool
}.

(** [self.scene.addLine(...)] for every coordinate of a range. *)
Definition addLines (ls : list QLineF) : M InfiniteGrid unit :=
  modify (fun g => set_lines (lines g ++ ls) g).

Definition draw_grid : M InfiniteGrid unit :=
  modify (set_lines []) ;;                            (* self.scene.clear() *)
  g <- get ;;
  let grid_size := PrimFloat.mul (float_of_Z 50) (scale_factor g) in
  let r := sceneRect g in
  x0 <- lift (int_of_float (left r)) ;;
  x1 <- lift (int_of_float (right r)) ;;
  step <- lift (int_of_float grid_size) ;;
  xs <- lift (range x0 x1 step) ;;
  addLines (map (fun x => {| lx1 := float_of_Z x; ly1 := top r;
                             lx2 := float_of_Z x; ly2 := bottom r |}) xs) ;;
  y0 <- lift (int_of_float (top r)) ;;
  y1 <- lift (int_of_float (bottom r)) ;;
  step' <- lift (int_of_float grid_size) ;;
  ys <- lift (range y0 y1 step') ;;
  addLines (map (fun y => {| lx1 := left r; ly1 := float_of_Z y;
                             lx2 := right r; ly2 := float_of_Z y |}) ys).

(** The attribute assignments and view settings of [__init__], before
    [draw_grid].  [last_mouse_pos] is not among them. *)
Definition attributes : InfiniteGrid :=
  let pan_limit_x := 5000%Z in
  let pan_limit_y := 5000%Z in
  {| scale_factor := 1.0%float;
     max_scale_factor := 0.85%float;
     min_scale_factor := 0.25%float;
     pan_limit_x := pan_limit_x;
     pan_limit_y := pan_limit_y;
     last_mouse_pos := None;
     sceneRect := {| left := float_of_Z (- pan_limit_x);
                     top := float_of_Z (- pan_limit_y);
                     width := float_of_Z (2 * pan_limit_x);
                     height := float_of_Z (2 * pan_limit_y) |};
     lines := [];
     zoom := 1.0%float;
     hbar := None;
     vbar := None;
     cursor := ArrowCursor |}.

(** [InfiniteGrid()] *)
Definition new_grid : res InfiniteGrid :=
  match draw_grid attributes with
  | (Ok _, g) => Ok g
  | (Raise e, _) => Raise e
  end.

(** The canvas as the constructor leaves it. *)
Definition built : InfiniteGrid := exec draw_grid attributes.

Definition wheelEvent (event : QWheelEvent) : M InfiniteGrid unit :=
  g <- get ;;
  let zoom_in_factor := 1.25%float in
  let zoom_out_factor := 0.8%float in
  let zoom_factor :=
    if (0 <? angleDelta_y event)%Z then zoom_in_factor else zoom_out_factor in
  let new_scale_factor := PrimFloat.mul (scale_factor g) zoom_factor in
  if PrimFloat.leb (min_scale_factor g) new_scale_factor
     && PrimFloat.leb new_scale_factor (max_scale_factor g)
  then
    modify (set_scale_factor new_scale_factor) ;;
    modify (fun g => set_zoom (PrimFloat.mul (zoom g) zoom_factor) g) ;;
    draw_grid
  else ret tt.

(** The base-class handlers called through [super()] change none of the
    fields above. *)
Definition mousePressEvent (event : QMouseEvent) : M InfiniteGrid unit :=
  if is_left (button event)
  then modify (set_last_mouse_pos (position event)) ;;
       modify (set_cursor ClosedHandCursor)
  else ret tt.

(** Reading [self.last_mouse_pos]. *)
Definition read_last_mouse_pos : M InfiniteGrid QPoint :=
  g <- get ;;
  match last_mouse_pos g with
  | Some p => ret p
  | None => raise (AttributeError "last_mouse_pos")
  end.

Inductive QEvent :=
| Wheel (e : QWheelEvent)
| MousePress (e : QMouseEvent)
| MouseMove (e : QMouseEvent)
| MouseRelease (e : QMouseEvent).

Section WithQt.
Variable qt : Qt.

Definition mouseMoveEvent (event : QMouseEvent) : M InfiniteGrid unit :=
  if existsb is_left (buttons event)          (* buttons() & LeftButton *)
  then
    last <- read_last_mouse_pos ;;            (* ... and self.last_mouse_pos *)
    if truth qt last
    then
      g <- get ;;
      let delta := qsub (mapToScene qt g (position event))
                        (mapToScene qt g last) in
      let new_x := max (min (sub (Int (horizontal_value qt g)) (Float (fx delta)))
                            (Int (pan_limit_x g)))
                       (Int (- pan_limit_x g)) in
      let new_y := max (min (sub (Int (vertical_value qt g)) (Float (fy delta)))
                            (Int (pan_limit_y g)))
                       (Int (- pan_limit_y g)) in
      modify (set_hbar new_x) ;;
      modify (set_vbar new_y) ;;
      modify (set_last_mouse_pos (position event))
    else ret tt
  else ret tt.

Definition mouseReleaseEvent (event : QMouseEvent) : M InfiniteGrid unit :=
  if is_left (button event)
  then modify (set_cursor ArrowCursor)
  else ret tt.

Definition handle (ev : QEvent) : M InfiniteGrid unit :=
  match ev with
  | Wheel e => wheelEvent e
  | MousePress e => mousePressEvent e
  | MouseMove e => mouseMoveEvent e
  | MouseRelease e => mouseReleaseEvent e
  end.

(** An exception raised by a handler is reported and the event loop goes
    on with the state the handler reached. *)
Definition deliver (g : InfiniteGrid) (ev : QEvent) : InfiniteGrid :=
  exec (handle ev) g.

Definition deliver_all (g : InfiniteGrid) (evs : list QEvent) : InfiniteGrid :=
  fold_left deliver evs g.

End WithQt.

Definition zoom_in_bounds (g : InfiniteGrid) : bool :=
  PrimFloat.leb (min_scale_factor g) (scale_factor g)
  && PrimFloat.leb (scale_factor g) (max_scale_factor g).

(** [-limit <= v <= limit], as Python evaluates it. *)
Definition within (limit : Z) (v : num) : bool :=
  le (Int (- limit)) v && le v (Int limit).

(** The scroll bar values set so far respect the pan limits. *)
Definition bars_in_bounds (g : InfiniteGrid) : bool :=
  match hbar g with Some v => within (pan_limit_x g) v | None => true end
  && match vbar g with Some v => within (pan_limit_y g) v | None => true end.

(** The scroll bar values set so far are numbers, not NaN. *)
Definition bars_are_numbers (g : InfiniteGrid) : bool :=
  match hbar g with Some v => negb (is_nan v) | None => true end
  && match vbar g with Some v => negb (is_nan v) | None => true end.

(** The pan limits are those of the constructor, and the values set on
    the scroll bars respect them whenever they are numbers. *)
Definition bars_ok (g : InfiniteGrid) : Prop :=
  pan_limit_x g = 5000%Z /\ pan_limit_y g = 5000%Z /\
  (bars_are_numbers g = true -> bars_in_bounds g = true).

(** [qRound(d)] *)
Definition qRound (d : float) : Z :=
  match int_of_float (if PrimFloat.leb 0 d
                      then PrimFloat.add d 0.5
                      else PrimFloat.sub d 0.5) with
  | Ok z => z
  | Raise _ => 0%Z
  end.

(** The value of a scroll bar of a view whose viewport is [extent] pixels
    long, over a scene that reaches from [-limit] to [limit]: the view
    starts centred on the origin of the scene; [setValue] cuts its
    argument to an integer and keeps it within the range of the bar. *)
Definition bar_value (limit extent : Z) (g : InfiniteGrid) (set : option num)
  : Z :=
  let low := qRound (PrimFloat.mul (float_of_Z (- limit)) (zoom g)) in
  let high := qRound (PrimFloat.sub (PrimFloat.mul (float_of_Z limit) (zoom g))
                                    (float_of_Z extent)) in
  match set with
  | None => (- (extent / 2))%Z
  | Some v =>
      let cut := match v with
                 | Int n => n
                 | Float f => match int_of_float f with
                              | Ok n => n
                              | Raise _ => 0%Z
                              end
                 end in
      Z.max low (Z.min high cut)
  end.

(** Qt's answers for running the handlers on concrete events: a view of
    the default size, 640 by 480 pixels with a viewport of 636 by 476,
    that only the handlers scroll.  The scroll bars start at -318 and
    -238 at every zoom, and hold what a pan has set until the next wheel
    event.  [mapToScene] adds the scroll offsets and undoes the zoom with
    the inverted matrix; a null [QPoint] is false in a condition. *)
Definition sample_qt : Qt :=
  let horizontal g := bar_value (pan_limit_x g) 636 g (hbar g) in
  let vertical g := bar_value (pan_limit_y g) 476 g (vbar g) in
  {| mapToScene := fun g p =>
       let inverted := PrimFloat.div 1.0 (zoom g) in
       {| fx := PrimFloat.mul (float_of_Z (px p + horizontal g)) inverted;
          fy := PrimFloat.mul (float_of_Z (py p + vertical g)) inverted |};
     horizontal_value := horizontal;
     vertical_value := vertical;
     truth := fun p => negb ((px p =? 0)%Z && (py p =? 0)%Z) |}.

Definition mouse (b : MouseButton) (held : list MouseButton) (x y : Z)
  : QMouseEvent :=
  {| button := b; buttons := held; position := {| px := x; py := y |} |}.

(** A press of the left button. *)
Definition is_left_press (ev : QEvent) : bool :=
  match ev with
  | MousePress e => is_left (button e)
  | _ => false
  end.

(** ** class MainWindow(QMainWindow) *)

Inductive DockWidgetArea :=
| LeftDockWidgetArea
| RightDockWidgetArea.

Inductive DockWidgetFeature :=
| DockWidgetClosable
| DockWidgetMovable
| DockWidgetFloatable.

(** The widgets the window is given. *)
Inductive QWidget :=
| Plain                            (* QWidget() *)
| View (g : InfiniteGrid).         (* an InfiniteGrid *)

Record QDockWidget := {
  dock_title : string;
  widget : option QWidget;
  features : list DockWidgetFeature;
  fixedWidth : option Z
}.

(** [QDockWidget(title, parent)]: closable, movable and floatable until
    told otherwise, without a widget. *)
Definition new_dock (title : string) : QDockWidget :=
  {| dock_title := title; widget := None;
     features := [DockWidgetClosable; DockWidgetMovable; DockWidgetFloatable];
     fixedWidth := None |}.

Definition setWidget (v : QWidget) (d : QDockWidget) : QDockWidget :=
  {| dock_title := dock_title d; widget := Some v; features := features d;
     fixedWidth := fixedWidth d |}.

Definition setFeatures (v : list DockWidgetFeature) (d : QDockWidget)
  : QDockWidget :=
  {| dock_title := dock_title d; widget := widget d; features := v;
     fixedWidth := fixedWidth d |}.

Definition setFixedWidth (v : Z) (d : QDockWidget) : QDockWidget :=
  {| dock_title := dock_title d; widget := widget d; features := features d;
     fixedWidth := Some v |}.

(** The window: its two attributes that are numbers, and the state kept by
    [QMainWindow].  [self.grid_view] is the central widget, and
    [self.left_dock] and [self.right_dock] are the docks of the window. *)
Record MainWindow := {
  left_dock_width : option Z;      (* [None]: the attribute does not exist yet *)
  right_dock_width : option Z;
  windowTitle : string;
  geometry : option (Z * Z * Z * Z);
  centralWidget : option QWidget;
  dockWidgets : list (DockWidgetArea * QDockWidget);
  menuBar : list (string * list string)   (* the menus and their entries *)
}.

(** [QMainWindow()]: a window without title, central widget, docks or
    menus. *)
Definition QMainWindow : MainWindow :=
  {| left_dock_width := None; right_dock_width := None;
     windowTitle := ""; geometry := None; centralWidget := None;
     dockWidgets := []; menuBar := [] |}.

Definition set_left_dock_width (v : Z) (w : MainWindow) : MainWindow :=
  {| left_dock_width := Some v; right_dock_width := right_dock_width w;
     windowTitle := windowTitle w; geometry := geometry w;
     centralWidget := centralWidget w; dockWidgets := dockWidgets w;
     menuBar := menuBar w |}.

Definition set_right_dock_width (v : Z) (w : MainWindow) : MainWindow :=
  {| left_dock_width := left_dock_width w; right_dock_width := Some v;
     windowTitle := windowTitle w; geometry := geometry w;
     centralWidget := centralWidget w; dockWidgets := dockWidgets w;
     menuBar := menuBar w |}.

Definition setWindowTitle (v : string) (w : MainWindow) : MainWindow :=
  {| left_dock_width := left_dock_width w;
     right_dock_width := right_dock_width w;
     windowTitle := v; geometry := geometry w;
     centralWidget := centralWidget w; dockWidgets := dockWidgets w;
     menuBar := menuBar w |}.

Definition setGeometry (x y w h : Z) (win : MainWindow) : MainWindow :=
  {| left_dock_width := left_dock_width win;
     right_dock_width := right_dock_width win;
     windowTitle := windowTitle win; geometry := Some (x, y, w, h);
     centralWidget := centralWidget win; dockWidgets := dockWidgets win;
     menuBar := menuBar win |}.

Definition setCentralWidget (v : QWidget) (w : MainWindow) : MainWindow :=
  {| left_dock_width := left_dock_width w;
     right_dock_width := right_dock_width w;
     windowTitle := windowTitle w; geometry := geometry w;
     centralWidget := Some v; dockWidgets := dockWidgets w;
     menuBar := menuBar w |}.

Definition addDockWidget (area : DockWidgetArea) (d : QDockWidget)
  (w : MainWindow) : MainWindow :=
  {| left_dock_width := left_dock_width w;
     right_dock_width := right_dock_width w;
     windowTitle := windowTitle w; geometry := geometry w;
     centralWidget := centralWidget w;
     dockWidgets := dockWidgets w ++ [(area, d)];
     menuBar := menuBar w |}.

(** Reading an attribute that holds a number. *)
Definition read_width (attr : string) (v : option Z) : M MainWindow Z :=
  match v with
  | Some n => ret n
  | None => raise (AttributeError attr)
  end.

(** [MainWindow.__init__] *)
Definition init : M MainWindow unit :=
  modify (setWindowTitle "VSmesh") ;;
  modify (setGeometry 100 100 1200 800) ;;
  modify (set_left_dock_width 200) ;;
  modify (set_right_dock_width 200) ;;
  grid_view <- lift new_grid ;;
  modify (setCentralWidget (View grid_view)) ;;
  let left_dock := new_dock "Functions and Variables" in
  let left_dock := setWidget Plain left_dock in
  let left_dock := setFeatures [] left_dock in     (* NoDockWidgetFeatures *)
  w <- get ;;
  width <- read_width "left_dock_width" (left_dock_width w) ;;
  let left_dock := setFixedWidth width left_dock in
  modify (addDockWidget LeftDockWidgetArea left_dock) ;;
  let right_dock := new_dock "Generated Code" in
  let right_dock := setWidget Plain right_dock in
  let right_dock := setFeatures [] right_dock in
  w <- get ;;
  width <- read_width "right_dock_width" (right_dock_width w) ;;
  let right_dock := setFixedWidth width right_dock in
  modify (addDockWidget RightDockWidgetArea right_dock).

(** [MainWindow()] *)
Definition start : res MainWindow :=
  match init QMainWindow with
  | (Ok _, w) => Ok w
  | (Raise e, _) => Raise e
  end.



End Main.

(* ===================================================================== *)
(** * Facts about the Python layer *)
(* ===================================================================== *)

Section PyFacts.
Import Py.
Local Open Scope string_scope.



Context {V : Type}.

Lemma getitem_setitem_same (k : string) (v : V) (d : dict V) :
  getitem k (setitem k v d) = Some v.
Proof.
  induction d as [|[k' v'] d IH]; cbn.
  - now rewrite String.eqb_refl.
  - destruct (String.eqb k' k) eqn:E; cbn; rewrite E; auto.
Qed.

Lemma getitem_setitem_other (k k' : string) (v : V) (d : dict V) :
  k <> k' -> getitem k' (setitem k v d) = getitem k' d.
Proof.
  intros Hne. induction d as [|[k0 v0] d IH]; cbn.
  - destruct (String.eqb_spec k k'); congruence.
  - destruct (String.eqb_spec k0 k); cbn.
    + subst k0. destruct (String.eqb_spec k k'); congruence.
    + destruct (String.eqb_spec k0 k'); auto.
Qed.

(** Storing under a key already present keeps the keys as they are. *)
Lemma keys_setitem_present (k : string) (v : V) (d : dict V) :
  In k (keys d) -> keys (setitem k v d) = keys d.
Proof.
  induction d as [|[k' v'] d IH]; cbn; intros Hin.
  - contradiction.
  - destruct (String.eqb_spec k' k); cbn.
    + reflexivity.
    + f_equal. apply IH. destruct Hin; [congruence | assumption].
Qed.

(** Storing under a new key appends it. *)
Lemma keys_setitem_absent (k : string) (v : V) (d : dict V) :
  ~ In k (keys d) -> keys (setitem k v d) = (keys d ++ [k])%list.
Proof.
  induction d as [|[k' v'] d IH]; cbn; intros Hin.
  - reflexivity.
  - destruct (String.eqb_spec k' k); cbn.
    + exfalso. apply Hin. now left.
    + f_equal. apply IH. intros H. apply Hin. now right.
Qed.

Lemma in_keys_setitem (k k' : string) (v : V) (d : dict V) :
  In k' (keys (setitem k v d)) <-> k' = k \/ In k' (keys d).
Proof.
  destruct (in_dec string_dec k (keys d)) as [Hin | Hout].
  - rewrite keys_setitem_present by assumption.
    split; [auto | intros [-> | H]; assumption].
  - rewrite keys_setitem_absent by assumption.
    rewrite in_app_iff. cbn. intuition congruence.
Qed.

(** A dictionary never holds a key twice. *)
Lemma keys_setitem_NoDup (k : string) (v : V) (d : dict V) :
  NoDup (keys d) -> NoDup (keys (setitem k v d)).
Proof.
  intros Hnd.
  destruct (in_dec string_dec k (keys d)) as [Hin | Hout].
  - now rewrite keys_setitem_present.
  - rewrite keys_setitem_absent by assumption.
    apply NoDup_app; [assumption | repeat constructor; auto | ].
    intros x Hx [<- | []]. contradiction.
Qed.

End PyFacts.

(* ===================================================================== *)
(** * The tkinter canvas: zoom and pan *)
(* ===================================================================== *)

Section MainportGrid.
Import Py Mainport.

(** [draw_grid] replaces the canvas lines and touches nothing else,
    whether it returns or raises. *)
Lemma draw_grid_run (g : InfiniteGrid) :
  exists r ls, draw_grid g = (r, set_items ls g).
Proof.
  unfold draw_grid, create_lines, bind, modify, get, lift. cbn.
  destruct (int_of_float _) as [step|e]; [|do 2 eexists; reflexivity].
  destruct (range _ _ step) as [xs|e]; [|do 2 eexists; reflexivity].
  destruct (range _ _ step) as [ys|e]; do 2 eexists; reflexivity.
Qed.

(** The constructor always succeeds and leaves the assigned attributes
    in place. *)
Lemma new_grid_built (frame : nat) : new_grid frame = Ok (built frame).
Proof. vm_compute. reflexivity. Qed.

Lemma built_attributes (frame : nat) :
  exists ls, built frame = set_items ls (attributes frame).
Proof.
  unfold built, exec.
  destruct (draw_grid_run (attributes frame)) as (r & ls & ->). now exists ls.
Qed.

Lemma wheel_event_run (event : Event) (g : InfiniteGrid) :
  let new_scale_factor :=
    PrimFloat.mul (scale_factor g)
      (if (0 <? delta event)%Z then 1.25%float else 0.8%float) in
  if PrimFloat.leb (min_scale_factor g) new_scale_factor
     && PrimFloat.leb new_scale_factor (max_scale_factor g)
  then exists ls, exec (wheel_event event) g
                  = set_items ls (set_scale_factor new_scale_factor g)
  else wheel_event event g = (Ok tt, g).
Proof.
  cbv zeta. unfold wheel_event, exec, bind, get, modify.
  cbn -[draw_grid].
  destruct (_ && _); [|reflexivity].
  destruct (draw_grid_run (set_scale_factor
              (PrimFloat.mul (scale_factor g)
                 (if (0 <? delta event)%Z then 1.25%float else 0.8%float)) g))
    as (r & ls & E).
  rewrite E. exists ls. destruct r; reflexivity.
Qed.

(** A wheel event whose scale would leave the limits changes nothing. *)
Lemma wheel_event_rejected (event : Event) (g : InfiniteGrid) :
  let new_scale_factor :=
    PrimFloat.mul (scale_factor g)
      (if (0 <? delta event)%Z then 1.25%float else 0.8%float) in
  PrimFloat.leb (min_scale_factor g) new_scale_factor
  && PrimFloat.leb new_scale_factor (max_scale_factor g) = false ->
  wheel_event event g = (Ok tt, g).
Proof.
  cbv zeta. intros H. pose proof (wheel_event_run event g) as R.
  cbv zeta in R. now rewrite H in R.
Qed.

(** A wheel event never takes the scale from inside the limits to
    outside. *)
Lemma wheel_event_keeps_zoom (event : Event) (g : InfiniteGrid) :
  zoom_in_bounds g = true ->
  zoom_in_bounds (exec (wheel_event event) g) = true.
Proof.
  intros Hin. pose proof (wheel_event_run event g) as R. cbv zeta in R.
  destruct (_ && _) eqn:Hok.
  - destruct R as (ls & ->). exact Hok.
  - unfold exec. now rewrite R.
Qed.

Lemma mouse_move_run (event : Event) (g : InfiniteGrid) :
  match last_mouse_pos g with
  | None => mouse_move event g = (Ok tt, g)
  | Some (last_x, last_y) =>
      let g' :=
        set_pan_offset_y
          (zmax (zmin (pan_offset_y g + (y event - last_y)) (pan_limit_y g))
                (- pan_limit_y g))
          (set_pan_offset_x
             (zmax (zmin (pan_offset_x g + (x event - last_x)) (pan_limit_x g))
                   (- pan_limit_x g)) g) in
      exists ls,
        exec (mouse_move event) g = set_items ls g' \/
        exec (mouse_move event) g
        = set_last_mouse_pos (Some (x event, y event)) (set_items ls g')
  end.
Proof.
  unfold mouse_move, exec, bind, get, modify. cbn -[draw_grid].
  destruct (last_mouse_pos g) as [[last_x last_y]|]; [|reflexivity].
  cbn -[draw_grid].
  match goal with
  | |- context [draw_grid ?s] => destruct (draw_grid_run s) as (r & ls & E)
  end.
  rewrite E. exists ls. destruct r; cbn; auto.
Qed.

Lemma clamp_in_bounds (v limit : Z) :
  (0 <= limit)%Z ->
  (- limit <= zmax (zmin v limit) (- limit) <= limit)%Z.
Proof.
  intros H. unfold zmax, zmin.
  destruct (Z.ltb_spec limit v);
    match goal with |- context [(?a <? ?b)%Z] => destruct (Z.ltb_spec a b) end;
    lia.
Qed.

Lemma built_pan_ok (frame : nat) : pan_ok (built frame).
Proof.
  destruct (built_attributes frame) as (ls & ->).
  unfold pan_ok, pan_in_bounds. cbn. lia.
Qed.

Lemma deliver_pan_ok (g : InfiniteGrid) (be : Binding * Event) :
  pan_ok g -> pan_ok (deliver g be).
Proof.
  destruct be as [b event]. unfold deliver. cbn [fst snd].
  intros (Hx & Hy & Hb).
  destruct b; cbn [handler].
  - (* mouse_press *) exact (conj Hx (conj Hy Hb)).
  - (* mouse_move *)
    pose proof (mouse_move_run event g) as R.
    destruct (last_mouse_pos g) as [[last_x last_y]|].
    + cbv zeta in R. destruct R as (ls & [-> | ->]);
        unfold pan_ok, pan_in_bounds; cbn;
        (split; [exact Hx | split; [exact Hy | split]]);
        apply clamp_in_bounds; assumption.
    + unfold exec. rewrite R. exact (conj Hx (conj Hy Hb)).
  - (* mouse_release *) exact (conj Hx (conj Hy Hb)).
  - (* wheel_event *)
    pose proof (wheel_event_run event g) as R. cbv zeta in R.
    destruct (_ && _).
    + destruct R as (ls & ->). exact (conj Hx (conj Hy Hb)).
    + unfold exec. rewrite R. exact (conj Hx (conj Hy Hb)).
Qed.

Lemma deliver_all_pan_ok (evs : list (Binding * Event)) (g : InfiniteGrid) :
  pan_ok g -> pan_ok (deliver_all g evs).
Proof.
  revert g. induction evs as [|be evs IH]; intros g H; cbn.
  - exact H.
  - apply IH. now apply deliver_pan_ok.
Qed.

(** Once inside the zoom limits, always inside. *)
Lemma deliver_all_keeps_zoom (evs : list (Binding * Event)) (g : InfiniteGrid) :
  zoom_in_bounds g = true -> zoom_in_bounds (deliver_all g evs) = true.
Proof.
  revert g. induction evs as [|[b event] evs IH]; intros g H; cbn.
  - exact H.
  - apply IH. unfold deliver. cbn [fst snd]. destruct b; cbn [handler].
    + exact H.
    + pose proof (mouse_move_run event g) as R.
      destruct (last_mouse_pos g) as [[last_x last_y]|].
      * cbv zeta in R. destruct R as (ls & [-> | ->]); exact H.
      * unfold exec. now rewrite R.
    + exact H.
    + now apply wheel_event_keeps_zoom.
Qed.

End MainportGrid.

(* ===================================================================== *)
(** * The PySide6 canvas: zoom, pan and the missing attribute *)
(* ===================================================================== *)

Section FloatOrder.

(** Two floats that are not NaN are always comparable. *)
Lemma float_not_lt_le (a b : float) :
  PrimFloat.is_nan a = false -> PrimFloat.is_nan b = false ->
  PrimFloat.ltb a b = false -> PrimFloat.leb b a = true.
Proof.
  unfold PrimFloat.is_nan.
  rewrite !eqb_spec, ltb_spec, leb_spec.
  generalize (Prim2SF a) (Prim2SF b). intros x y.
  unfold SFeqb, SFltb, SFleb.
  destruct x as [sx|sx| |sx mx ex], y as [sy|sy| |sy my ey]; cbn;
    try discriminate; try reflexivity;
    try (destruct sx; discriminate || reflexivity);
    try (destruct sy; discriminate || reflexivity);
    try (destruct sx, sy; discriminate || reflexivity).
  intros _ _.
  rewrite (Z.compare_antisym ex ey).
  change (Pos.compare_cont Eq my mx) with (Pos.compare my mx).
  change (Pos.compare_cont Eq mx my) with (Pos.compare mx my).
  rewrite (Pos.compare_antisym mx my).
  destruct sx, sy; try discriminate; try reflexivity;
    destruct (ex ?= ey)%Z; cbn; try discriminate; try reflexivity;
    destruct (mx ?= my)%positive; cbn; discriminate || reflexivity.
Qed.

End FloatOrder.

Section MainGrid.
Import Py Main.
Variable qt : Qt.

Lemma Main_draw_grid_run (g : InfiniteGrid) :
  exists r ls, draw_grid g = (r, set_lines ls g).
Proof.
  unfold draw_grid, addLines, bind, modify, get, lift. cbn.
  repeat match goal with
         | |- context [match ?r with Ok _ => _ | Raise _ => _ end] =>
             destruct r; [|do 2 eexists; reflexivity]
         end.
  do 2 eexists; reflexivity.
Qed.

Lemma Main_new_grid_built : new_grid = Ok built.
Proof. vm_compute. reflexivity. Qed.

Lemma Main_built_attributes : exists ls, built = set_lines ls attributes.
Proof.
  unfold built, exec.
  destruct (Main_draw_grid_run attributes) as (r & ls & ->). now exists ls.
Qed.

Lemma wheelEvent_run (e : QWheelEvent) (g : InfiniteGrid) :
  let zoom_factor :=
    if (0 <? angleDelta_y e)%Z then 1.25%float else 0.8%float in
  let new_scale_factor := PrimFloat.mul (scale_factor g) zoom_factor in
  if PrimFloat.leb (min_scale_factor g) new_scale_factor
     && PrimFloat.leb new_scale_factor (max_scale_factor g)
  then exists ls, exec (wheelEvent e) g
                  = set_lines ls
                      (set_zoom (PrimFloat.mul (zoom g) zoom_factor)
                         (set_scale_factor new_scale_factor g))
  else wheelEvent e g = (Ok tt, g).
Proof.
  cbv zeta. unfold wheelEvent, exec, bind, get, modify.
  cbn -[draw_grid].
  destruct (_ && _); [|reflexivity].
  match goal with
  | |- context [draw_grid ?s] => destruct (Main_draw_grid_run s) as (r & ls & E)
  end.
  rewrite E. exists ls. destruct r; reflexivity.
Qed.

(** The three ways a mouse move can go. *)
Lemma mouseMoveEvent_run (e : QMouseEvent) (g : InfiniteGrid) :
  mouseMoveEvent qt e g =
  if existsb is_left (buttons e)
  then match last_mouse_pos g with
       | None => (Raise (AttributeError "last_mouse_pos"), g)
       | Some last =>
           if truth qt last
           then
             let delta := qsub (mapToScene qt g (position e))
                               (mapToScene qt g last) in
             (Ok tt,
              set_last_mouse_pos (position e)
                (set_vbar
                   (max (min (sub (Int (vertical_value qt g)) (Float (fy delta)))
                             (Int (pan_limit_y g)))
                        (Int (- pan_limit_y g)))
                   (set_hbar
                      (max (min (sub (Int (horizontal_value qt g))
                                     (Float (fx delta)))
                                (Int (pan_limit_x g)))
                           (Int (- pan_limit_x g))) g)))
           else (Ok tt, g)
       end
  else (Ok tt, g).
Proof.
  unfold mouseMoveEvent, read_last_mouse_pos, bind, get, modify, raise, ret.
  destruct (existsb is_left (buttons e)); [|reflexivity].
  destruct (last_mouse_pos g) as [last|]; [|reflexivity].
  destruct (truth qt last); reflexivity.
Qed.

(** Clamping against the limit 5000 gives a value within the limit,
    unless it gives NaN. *)
Lemma clamp_within (t : num) :
  let v := max (min t (Int 5000)) (Int (- 5000)) in
  is_nan v = false -> within 5000 v = true.
Proof.
  cbv zeta. destruct t as [z|f].
  - unfold max, min, within, lt, le. intros _.
    destruct (Z.ltb_spec 5000 z).
    + reflexivity.
    + destruct (Z.ltb_spec z (- 5000)).
      * reflexivity.
      * apply andb_true_intro. split; apply Z.leb_le; lia.
  - unfold min. cbn [lt to_float].
    change (float_of_Z 5000) with 5000%float.
    destruct (PrimFloat.ltb 5000 f) eqn:E1.
    + intros _. reflexivity.
    + unfold max. cbn [lt to_float].
      change (float_of_Z (- 5000)) with (-5000)%float.
      destruct (PrimFloat.ltb f (-5000)) eqn:E2.
      * intros _. reflexivity.
      * cbn [is_nan]. intros Hn. unfold within. cbn [le to_float].
        change (float_of_Z (- 5000)) with (-5000)%float.
        change (float_of_Z 5000) with 5000%float.
        apply andb_true_intro. split.
        -- apply float_not_lt_le; [exact Hn | reflexivity | exact E2].
        -- apply float_not_lt_le; [reflexivity | exact Hn | exact E1].
Qed.

Lemma built_bars_ok : bars_ok built.
Proof.
  destruct Main_built_attributes as (ls & ->). repeat split.
Qed.

Lemma deliver_bars_ok (g : InfiniteGrid) (ev : QEvent) :
  bars_ok g -> bars_ok (deliver qt g ev).
Proof.
  intros (Hx & Hy & Hb). unfold deliver. destruct ev as [e|e|e|e]; cbn [handle].
  - pose proof (wheelEvent_run e g) as R. cbv zeta in R.
    destruct (_ && _).
    + destruct R as (ls & ->). exact (conj Hx (conj Hy Hb)).
    + unfold exec. rewrite R. exact (conj Hx (conj Hy Hb)).
  - unfold mousePressEvent, exec.
    destruct (is_left (button e)); exact (conj Hx (conj Hy Hb)).
  - unfold exec. rewrite mouseMoveEvent_run.
    destruct (existsb is_left (buttons e)); [|exact (conj Hx (conj Hy Hb))].
    destruct (last_mouse_pos g) as [last|]; [|exact (conj Hx (conj Hy Hb))].
    destruct (truth qt last); [|exact (conj Hx (conj Hy Hb))].
    cbv zeta. unfold bars_ok, bars_are_numbers, bars_in_bounds.
    cbn [snd pan_limit_x pan_limit_y hbar vbar set_last_mouse_pos set_vbar set_hbar].
    rewrite Hx, Hy. repeat split.
    intros Hn. apply andb_prop in Hn as [Hh Hv].
    apply negb_true_iff in Hh, Hv.
    apply andb_true_intro. split; apply clamp_within; assumption.
  - unfold mouseReleaseEvent, exec.
    destruct (is_left (button e)); exact (conj Hx (conj Hy Hb)).
Qed.

Lemma deliver_all_bars_ok (evs : list QEvent) (g : InfiniteGrid) :
  bars_ok g -> bars_ok (deliver_all qt g evs).
Proof.
  revert g. induction evs as [|ev evs IH]; intros g H; cbn.
  - exact H.
  - apply IH. now apply deliver_bars_ok.
Qed.

(** Without a press of the left button the attribute stays missing. *)
Lemma deliver_all_no_left_press (evs : list QEvent) (g : InfiniteGrid) :
  last_mouse_pos g = None ->
  existsb is_left_press evs = false ->
  last_mouse_pos (deliver_all qt g evs) = None.
Proof.
  revert g. induction evs as [|ev evs IH]; intros g Hg Hno; cbn.
  - exact Hg.
  - cbn in Hno. apply orb_false_iff in Hno as [Hev Hrest].
    apply IH; [|exact Hrest].
    unfold deliver. destruct ev as [e|e|e|e]; cbn [handle].
    + pose proof (wheelEvent_run e g) as R. cbv zeta in R.
      destruct (_ && _).
      * destruct R as (ls & ->). exact Hg.
      * unfold exec. now rewrite R.
    + cbn in Hev. unfold mousePressEvent, exec. now rewrite Hev.
    + unfold exec. rewrite mouseMoveEvent_run, Hg.
      now destruct (existsb is_left (buttons e)).
    + unfold mouseReleaseEvent, exec. now destruct (is_left (button e)).
Qed.

(** Once inside the zoom limits, always inside. *)
Lemma Main_deliver_all_keeps_zoom (evs : list QEvent) (g : InfiniteGrid) :
  zoom_in_bounds g = true -> zoom_in_bounds (deliver_all qt g evs) = true.
Proof.
  revert g. induction evs as [|ev evs IH]; intros g H; cbn.
  - exact H.
  - apply IH. unfold deliver. destruct ev as [e|e|e|e]; cbn [handle].
    + pose proof (wheelEvent_run e g) as R. cbv zeta in R.
      destruct (_ && _) eqn:Hok.
      * destruct R as (ls & ->). exact Hok.
      * unfold exec. now rewrite R.
    + unfold mousePressEvent, exec. now destruct (is_left (button e)).
    + unfold exec. rewrite mouseMoveEvent_run.
      destruct (existsb is_left (buttons e)); [|exact H].
      destruct (last_mouse_pos g) as [last|]; [|exact H].
      now destruct (truth qt last).
    + unfold mouseReleaseEvent, exec. now destruct (is_left (button e)).
Qed.

End MainGrid.

(* ===================================================================== *)
(** * The tkinter window: tabs, archive and menu *)
(* ===================================================================== *)

Section MainportWindow.
Import Py Mainport.
Local Open Scope string_scope.

(** The window left by [add_tab]: six new widgets, one more notebook
    page, and the name bound to the new widgets. *)
Lemma add_tab_run (name : string) (a : App) :
  let n := List.length (widgets (win a)) in
  add_tab name a =
  (Ok tt,
   {| win :=
        {| title := title (win a);
           geometry := geometry (win a);
           widgets :=
             (widgets (win a)
              ++ [PageFrame;
                  Panel n 0;
                  Textbox (n + 1) "Left Panel: Functions and Variables";
                  Panel n 2;
                  Textbox (n + 3) "Right Panel: Generated Code";
                  Canvas (built n)])%list;
           notebook := (notebook (win a) ++ [(n, name)])%list;
           tabs := setitem name {| grid := n + 5; left_panel := n + 1;
                                   right_panel := n + 3 |} (tabs (win a));
           menu := menu (win a) |};
      world := world a |}).
Proof.
  destruct a as [[t ge ws nb tb mn] wd]. cbv zeta.
  unfold add_tab, alloc, bind, get, modify, ret, lift, set_win.
  cbn -[new_grid built]. rewrite new_grid_built.
  generalize (built (List.length ws)). intros g.
  cbn. rewrite !length_app. cbn [List.length].
  rewrite <- !app_assoc. cbn [app].
  rewrite <- !Nat.add_assoc. cbn [Nat.add].
  reflexivity.
Qed.



Lemma for_each_app {S X} (xs ys : list X) (body : X -> M S unit) (s : S) :
  for_each (xs ++ ys) body s =
  match for_each xs body s with
  | (Ok _, s') => for_each ys body s'
  | (Raise e, s') => (Raise e, s')
  end.
Proof.
  revert s. induction xs as [|x xs IH]; intros s; cbn.
  - reflexivity.
  - unfold bind. destruct (body x s) as [[[]|e] s']; [apply IH | reflexivity].
Qed.



Lemma names_fit_app (xs ys : list string) :
  names_fit (xs ++ ys) = names_fit xs && names_fit ys.
Proof. unfold names_fit. apply forallb_app. Qed.



(** Whatever the name, [writestr] changes files only, and only the file
    at [file_path], which stays an archive with the members it had. *)
Lemma writestr_frame (file_path name data : string) (a : App) :
  exists r fs,
    writestr file_path name data a = (r, set_world (set_files fs) a)
    /\ (forall p, p <> file_path ->
                  getitem p fs = getitem p (files (world a)))
    /\ (forall members,
          getitem file_path (files (world a)) = Some (Zip members) ->
          exists more,
            getitem file_path fs = Some (Zip (members ++ more)%list)).
Proof.
  unfold writestr. cbv zeta. destruct (_ <? _)%Z.
  - exists (Raise StructError), (files (world a)).
    split; [now destruct a as [w [so bx dl fs ro]]|].
    split; [reflexivity|].
    intros members H. exists []. now rewrite app_nil_r.
  - destruct a as [w [so bx dl fls ro]]. unfold modify, set_world. cbn.
    destruct (getitem file_path fls) as [[|ms]|] eqn:E.
    + exists (Ok tt), fls. split; [reflexivity|]. split; [reflexivity|].
      intros members H. congruence.
    + eexists (Ok tt), _. split; [reflexivity|]. split.
      * intros p Hp. apply getitem_setitem_other. congruence.
      * intros members [= <-]. eexists. apply getitem_setitem_same.
    + exists (Ok tt), fls. split; [reflexivity|]. split; [reflexivity|].
      intros members H. congruence.
Qed.

(** So does the loop of [save_to_vsm1]. *)
Lemma write_frame (file_path : string) (items : list (string * TabData)) :
  forall a : App,
    exists r fs,
      for_each items
        (fun item =>
           writestr file_path (fst item ++ ".vs")
                    ("Generated code for " ++ fst item ++ ".")) a
      = (r, set_world (set_files fs) a)
      /\ (forall p, p <> file_path ->
                    getitem p fs = getitem p (files (world a)))
      /\ (forall members,
            getitem file_path (files (world a)) = Some (Zip members) ->
            exists more,
              getitem file_path fs = Some (Zip (members ++ more)%list)).
Proof.
  induction items as [|item items IH]; intros a.
  - exists (Ok tt), (files (world a)).
    split; [now destruct a as [w [so bx dl fs ro]]|].
    split; [reflexivity|].
    intros members H. exists []. now rewrite app_nil_r.
  - cbn [for_each]. unfold bind.
    destruct (writestr_frame file_path (fst item ++ ".vs")
                ("Generated code for " ++ fst item ++ ".") a)
      as (r1 & fs1 & -> & Hfs1 & Hzip1).
    destruct r1 as [[]|e].
    + destruct (IH (set_world (set_files fs1) a))
        as (r & fs & -> & Hfs & Hzip).
      exists r, fs. split; [now destruct a as [w [so bx dl fls ro]]|]. split.
      * intros p Hp. rewrite (Hfs p Hp).
        destruct a as [w [so bx dl fls ro]]. cbn. now apply Hfs1.
      * intros members H. destruct (Hzip1 members H) as (more1 & H1).
        destruct (Hzip (members ++ more1)%list) as (more & H2).
        { now destruct a as [w [so bx dl fls ro]]. }
        exists (more1 ++ more)%list. now rewrite app_assoc.
    + exists (Raise e), fs1. split; [reflexivity|]. now split.
Qed.





(** *** Loading *)


(** A run of [add_tab]s always returns; the window it leaves depends on
    the window alone and the world is left as it was. *)
Lemma add_tabs_run (names : list string) :
  forall a : App,
    fst (for_each names add_tab a) = Ok tt /\
    world (exec (for_each names add_tab) a) = world a /\
    forall b : App, win b = win a ->
      win (exec (for_each names add_tab) b)
      = win (exec (for_each names add_tab) a).
Proof.
  induction names as [|name names IH]; intros a.
  - cbn. auto.
  - cbn [for_each]. unfold exec, bind. rewrite add_tab_run. cbv zeta.
    match goal with
    | |- context [for_each names add_tab ?s] =>
        destruct (IH s) as (H1 & H2 & H3)
    end.
    split; [exact H1 | split; [exact H2 |]].
    intros b Hb. rewrite add_tab_run. cbv zeta. rewrite Hb.
    apply H3. reflexivity.
Qed.

Lemma add_tabs_cons (name : string) (names : list string) (a : App) :
  exec (for_each (name :: names) add_tab) a
  = exec (for_each names add_tab) (exec (add_tab name) a).
Proof.
  unfold exec. cbn [for_each]. unfold bind. now rewrite add_tab_run.
Qed.

Lemma load_member_ok (vsm1_file : list (string * Member))
  (file_name text : string) (a : App) :
  fetch vsm1_file file_name = Ok text ->
  load_member vsm1_file file_name a =
  (Ok tt,
   exec (print ("Loaded " ++ file_name ++ ": " ++ text))
        (exec (add_tab (replace ".vs" "" file_name)) a)).
Proof.
  unfold fetch, load_member, bind, lift, exec. intros H.
  destruct (read vsm1_file file_name) as [data|e]; [|discriminate].
  rewrite H, add_tab_run. reflexivity.
Qed.

Lemma load_member_fails (vsm1_file : list (string * Member))
  (file_name : string) (e : exn) (a : App) :
  fetch vsm1_file file_name = Raise e ->
  load_member vsm1_file file_name a = (Raise e, a).
Proof.
  unfold fetch, load_member, bind, lift. intros H.
  destruct (read vsm1_file file_name) as [data|e'].
  - now rewrite H.
  - now injection H as ->.
Qed.

(** Members that all read and decode are all turned into tabs; only
    standard output changes besides the window. *)
Lemma load_members_ok (vsm1_file : list (string * Member))
  (names : list string) :
  forall a : App,
    (forall n, In n names -> exists text, fetch vsm1_file n = Ok text) ->
    exists s out,
      for_each names (load_member vsm1_file) a = (Ok tt, s) /\
      win s = win (exec (for_each (map (replace ".vs" "") names) add_tab) a) /\
      world s = set_stdout (stdout (world a) ++ out)%list (world a).
Proof.
  induction names as [|name names IH]; intros a Hok.
  - exists a, []. cbn. rewrite app_nil_r.
    destruct a as [w [so bx dl fs ro]]. auto.
  - destruct (Hok name (or_introl eq_refl)) as (text & Hf).
    cbn [map]. rewrite add_tabs_cons.
    cbn [for_each]. unfold bind at 1.
    rewrite (load_member_ok _ _ _ _ Hf).
    set (a1 := exec (add_tab (replace ".vs" "" name)) a).
    set (a2 := exec (print _) a1).
    destruct (IH a2) as (s & out & Hrun & Hwin & Hworld).
    { intros n Hn. apply Hok. now right. }
    exists s, (("Loaded " ++ name ++ ": " ++ text)%string :: out)%list.
    split; [exact Hrun | split].
    + rewrite Hwin.
      apply (proj2 (proj2 (add_tabs_run _ a1))). reflexivity.
    + rewrite Hworld. subst a2 a1. unfold exec. rewrite add_tab_run.
      cbn. unfold set_stdout. cbn. rewrite <- app_assoc. reflexivity.
Qed.


(** When a member fails, the loop stops there: the tabs of the members
    before it have been added. *)
Lemma load_members_fail (vsm1_file : list (string * Member))
  (pre post : list string) (bad : string) (e : exn) (a : App) :
  (forall n, In n pre -> exists text, fetch vsm1_file n = Ok text) ->
  fetch vsm1_file bad = Raise e ->
  exists s out,
    for_each (pre ++ bad :: post) (load_member vsm1_file) a = (Raise e, s) /\
    win s = win (exec (for_each (map (replace ".vs" "") pre) add_tab) a) /\
    world s = set_stdout (stdout (world a) ++ out)%list (world a).
Proof.
  intros Hpre Hbad.
  destruct (load_members_ok vsm1_file pre a Hpre) as (s & out & Hrun & Hw).
  exists s, out. split; [|exact Hw].
  rewrite for_each_app, Hrun. cbn [for_each]. unfold bind.
  now rewrite (load_member_fails _ _ _ _ Hbad).
Qed.

Lemma zip_open_run (file_path : string) (a : App)
  (members : list (string * Member)) :
  archive_at file_path a = Some members ->
  zip_open file_path a = (Ok members, a).
Proof.
  unfold archive_at, zip_open, bind, get.
  destruct (getitem file_path (files (world a))) as [[|ms]|];
    try discriminate.
  now intros [= ->].
Qed.

Lemma zip_open_fails (file_path : string) (a : App) :
  archive_at file_path a = None ->
  exists e, zip_open file_path a = (Raise e, a).
Proof.
  unfold archive_at, zip_open, bind, get.
  destruct (getitem file_path (files (world a))) as [[|ms]|];
    try discriminate; intros _; eexists; reflexivity.
Qed.

(** *** The tab names and canvases left by a run of [add_tab]s *)

Lemma tabs_after_add_tab (name : string) (a : App) :
  tabs (win (exec (add_tab name) a))
  = setitem name {| grid := List.length (widgets (win a)) + 5;
                    left_panel := List.length (widgets (win a)) + 1;
                    right_panel := List.length (widgets (win a)) + 3 |}
            (tabs (win a)).
Proof. unfold exec. now rewrite add_tab_run. Qed.


(** Adding tabs under names that are all in use leaves the names as
    they are, order included. *)
Lemma keys_after_add_tabs_present (names : list string) :
  forall a : App,
    (forall n, In n names -> In n (keys (tabs (win a)))) ->
    keys (tabs (win (exec (for_each names add_tab) a)))
    = keys (tabs (win a)).
Proof.
  induction names as [|m names IH]; intros a Hin.
  - reflexivity.
  - rewrite add_tabs_cons, IH.
    + rewrite tabs_after_add_tab. apply keys_setitem_present.
      apply Hin. now left.
    + intros n Hn. rewrite tabs_after_add_tab.
      apply in_keys_setitem. right. apply Hin. now right.
Qed.




(** *** Reading back what a save wrote *)




End MainportWindow.

(* ===================================================================== *)
(** * The claims about pan and zoom *)
(* ===================================================================== *)

(** C3: the zoom is meant to stay within [min_scale_factor,
    max_scale_factor] = [0.25, 0.85].  Run on the canvas as either
    constructor leaves it, the code disagrees: the scale factor starts at
    1.0, above the maximum of 0.85, and a wheel event that zooms in is
    refused and leaves it there. *)
Theorem constructor_zoom_above_maximum :
  (Mainport.new_grid 0 = Py.Ok (Mainport.built 0) /\
   Mainport.scale_factor (Mainport.built 0) = 1.0%float /\
   Mainport.max_scale_factor (Mainport.built 0) = 0.85%float /\
   Mainport.zoom_in_bounds (Mainport.built 0) = false /\
   Mainport.zoom_in_bounds
     (Mainport.deliver (Mainport.built 0)
        (Mainport.MouseWheel, Mainport.wheel_up)) = false) /\
  (Main.new_grid = Py.Ok Main.built /\
   Main.scale_factor Main.built = 1.0%float /\
   Main.max_scale_factor Main.built = 0.85%float /\
   Main.zoom_in_bounds Main.built = false /\
   Main.zoom_in_bounds
     (Main.deliver Main.sample_qt Main.built
        (Main.Wheel {| Main.angleDelta_y := 120 |})) = false).
Proof. repeat split; vm_compute; reflexivity. Qed.

(** The part of C3 that the code keeps: from the first accepted wheel
    event on, the tkinter canvas stays within the zoom limits. *)
Lemma zoom_in_bounds_after_first_zoom_out (frame : nat)
  (evs : list (Mainport.Binding * Mainport.Event)) :
  Mainport.zoom_in_bounds
    (Mainport.deliver_all (Mainport.built frame)
       ((Mainport.MouseWheel, Mainport.wheel_down) :: evs)) = true.
Proof.
  cbn [Mainport.deliver_all fold_left].
  apply deliver_all_keeps_zoom. vm_compute. reflexivity.
Qed.

(** C7: panning is clamped in both prototypes.  Whatever events reach a
    newly built canvas, the pan offsets of the tkinter canvas stay within
    [-pan_limit, pan_limit], and so do the values the PySide6 canvas has
    set on its scroll bars, Qt's scene coordinates being numbers. *)
Theorem pan_stays_within_limits (frame : nat)
  (evs : list (Mainport.Binding * Mainport.Event))
  (qt : Main.Qt) (qevs : list Main.QEvent) :
  Main.bars_are_numbers (Main.deliver_all qt Main.built qevs) = true ->
  Mainport.pan_in_bounds (Mainport.deliver_all (Mainport.built frame) evs) /\
  Main.bars_in_bounds (Main.deliver_all qt Main.built qevs) = true.
Proof.
  intros Hnum. split.
  - apply (deliver_all_pan_ok evs (Mainport.built frame)), built_pan_ok.
  - destruct (deliver_all_bars_ok qt qevs Main.built built_bars_ok)
      as (_ & _ & H).
    exact (H Hnum).
Qed.

Lemma pan_stays_within_limits_witness :
  let evs := [(Mainport.ButtonPress1, Mainport.at_point 0 0);
              (Mainport.B1Motion, Mainport.at_point 7000 (-9000))] in
  let qevs := [Main.MousePress (Main.mouse Main.LeftButton [Main.LeftButton] 10 10);
               Main.MouseMove (Main.mouse Main.NoButton [Main.LeftButton] 7000 (-9000))] in
  Main.bars_are_numbers (Main.deliver_all Main.sample_qt Main.built qevs) = true /\
  Mainport.pan_in_bounds (Mainport.deliver_all (Mainport.built 0) evs) /\
  Main.bars_in_bounds (Main.deliver_all Main.sample_qt Main.built qevs) = true.
Proof.
  cbv zeta. split.
  - vm_compute. reflexivity.
  - apply pan_stays_within_limits. vm_compute. reflexivity.
Defined.

(** C10 as stated fails: on a newly built PySide6 canvas a mouse move with
    only the right button held does not read the missing attribute; it
    returns and changes nothing. *)
Lemma move_without_left_button_returns :
  Main.last_mouse_pos Main.built = None /\
  Main.mouseMoveEvent Main.sample_qt
    (Main.mouse Main.NoButton [Main.RightButton] 3 4) Main.built
  = (Py.Ok tt, Main.built).
Proof. split; vm_compute; reflexivity. Qed.

(** C10, amended: [last_mouse_pos] is assigned by a left-button press
    only.  As long as no such press has been delivered to a newly built
    canvas, a mouse move with the left button held raises
    [AttributeError]; a mouse move without it returns.  Either way the
    canvas is left as it was. *)
Theorem move_before_left_press (qt : Main.Qt) (evs : list Main.QEvent)
  (e : Main.QMouseEvent) :
  existsb Main.is_left_press evs = false ->
  let g := Main.deliver_all qt Main.built evs in
  Main.mouseMoveEvent qt e g =
  if existsb Main.is_left (Main.buttons e)
  then (Py.Raise (Py.AttributeError "last_mouse_pos"), g)
  else (Py.Ok tt, g).
Proof.
  intros Hno g. rewrite mouseMoveEvent_run.
  assert (Hg : Main.last_mouse_pos g = None).
  { apply deliver_all_no_left_press; [|exact Hno].
    destruct Main_built_attributes as (ls & ->). reflexivity. }
  now rewrite Hg.
Qed.

Lemma move_before_left_press_witness :
  let evs := [Main.Wheel {| Main.angleDelta_y := -120 |};
              Main.MousePress (Main.mouse Main.RightButton [Main.RightButton] 1 1);
              Main.MouseRelease (Main.mouse Main.RightButton [] 1 1)] in
  let e := Main.mouse Main.NoButton [Main.LeftButton] 5 5 in
  existsb Main.is_left_press evs = false /\
  Main.mouseMoveEvent Main.sample_qt e (Main.deliver_all Main.sample_qt Main.built evs)
  = (Py.Raise (Py.AttributeError "last_mouse_pos"),
     Main.deliver_all Main.sample_qt Main.built evs).
Proof.
  cbv zeta. split.
  - reflexivity.
  - exact (move_before_left_press Main.sample_qt
             [Main.Wheel {| Main.angleDelta_y := -120 |};
              Main.MousePress (Main.mouse Main.RightButton [Main.RightButton] 1 1);
              Main.MouseRelease (Main.mouse Main.RightButton [] 1 1)]
             (Main.mouse Main.NoButton [Main.LeftButton] 5 5) eq_refl).
Defined.

(* ===================================================================== *)
(** * The claim about code generation *)
(* ===================================================================== *)

(** C6: [generate_code] prints one line and does nothing else: it returns
    [None], the window (tabs, widgets, notebook, menu) is the same, and so
    are the message boxes, the pending dialogs and the files. *)
Theorem generate_code_only_prints (language : string) (a : Mainport.App) :
  let r := Mainport.generate_code language a in
  fst r = Py.Ok tt /\
  Mainport.win (snd r) = Mainport.win a /\
  Mainport.stdout (Mainport.world (snd r))
  = Mainport.stdout (Mainport.world a)
    ++ [("Generated " ++ language ++ " code.")%string] /\
  Mainport.boxes (Mainport.world (snd r)) = Mainport.boxes (Mainport.world a) /\
  Mainport.dialog (Mainport.world (snd r)) = Mainport.dialog (Mainport.world a) /\
  Mainport.files (Mainport.world (snd r)) = Mainport.files (Mainport.world a) /\
  Mainport.readonly (Mainport.world (snd r))
  = Mainport.readonly (Mainport.world a).
Proof. cbv zeta. repeat split. Qed.

(* ===================================================================== *)
(** * The claims about saving and loading *)
(* ===================================================================== *)

Section SaveLoad.
Import Py Mainport.
Local Open Scope string_scope.

Lemma fetch_not_raised (vsm1_file : list (string * Member)) (names : list string) :
  forallb (fun n => negb (raised (fetch vsm1_file n))) names = true ->
  forall n, In n names -> exists text, fetch vsm1_file n = Ok text.
Proof.
  intros H n Hn. rewrite forallb_forall in H. specialize (H n Hn).
  destruct (fetch vsm1_file n) as [text|e]; [now exists text | discriminate].
Qed.


(** A load that fails on a member keeps the tabs added before it. *)
Lemma load_fail_run (file_path : string) (a : App)
  (members : list (string * Member)) (pre post : list string)
  (bad : string) (e : exn) :
  archive_at file_path a = Some members ->
  namelist members = (pre ++ bad :: post)%list ->
  (forall n, In n pre -> exists text, fetch members n = Ok text) ->
  fetch members bad = Raise e ->
  fst (loading file_path a) = Raise e /\
  win (exec (load_from_vsm1 file_path) a)
  = win (exec (for_each (map (replace ".vs" "") pre) add_tab) a) /\
  boxes (world (exec (load_from_vsm1 file_path) a))
  = (boxes (world a) ++ [ShowError "Error" "Error loading file: " e])%list.
Proof.
  intros Hopen Hnames Hpre Hbad.
  unfold load_from_vsm1, try_except, loading, exec, bind.
  rewrite (zip_open_run _ _ _ Hopen), Hnames.
  destruct (load_members_fail members pre post bad e a Hpre Hbad)
    as (s & out & -> & Hwin & Hworld).
  cbn. rewrite Hworld. auto.
Qed.

(** A load that cannot open the archive leaves the window alone. *)
Lemma load_unopened_run (file_path : string) (a : App) :
  archive_at file_path a = None ->
  win (exec (load_from_vsm1 file_path) a) = win a.
Proof.
  intros Hopen.
  unfold load_from_vsm1, try_except, loading, exec, bind.
  destruct (zip_open_fails _ _ Hopen) as (e & ->). reflexivity.
Qed.



End SaveLoad.


(** Nor does a reload keep what the tabs hold: the zoom and pan of the
    first canvas of [edited] are back to those of a new canvas. *)
Lemma save_load_resets_canvases :
  option_map Mainport.content
    (Mainport.grid_of "Script 1" (Mainport.win Mainport.edited))
  = Some (0.8%float, 40%Z, 25%Z) /\
  option_map Mainport.content
    (Mainport.grid_of "Script 1"
       (Mainport.win (Mainport.reload "p.vsm1" Mainport.edited)))
  = Some (1.0%float, 0%Z, 0%Z) /\
  ~ Mainport.same_project
      (Mainport.win Mainport.edited)
      (Mainport.win (Mainport.reload "p.vsm1" Mainport.edited)).
Proof.
  assert (G1 : option_map Mainport.content
                 (Mainport.grid_of "Script 1" (Mainport.win Mainport.edited))
               = Some (0.8%float, 40%Z, 25%Z)) by (vm_compute; reflexivity).
  assert (G2 : option_map Mainport.content
                 (Mainport.grid_of "Script 1"
                    (Mainport.win (Mainport.reload "p.vsm1" Mainport.edited)))
               = Some (1.0%float, 0%Z, 0%Z)) by (vm_compute; reflexivity).
  split; [exact G1 | split; [exact G2 |]].
  intros [_ Hc]. specialize (Hc "Script 1"%string).
  rewrite G1, G2 in Hc. discriminate Hc.
Qed.



(** C2 as stated fails: the second member of the archive cannot be
    decoded, the load is rejected with an error box, and the tab made for
    the first member stays in the window. *)
Lemma failed_load_leaves_a_tab_behind :
  let a := snd (Mainport.start Mainport.half_readable) in
  let a' := Py.exec (Mainport.load_from_vsm1 "bad.vsm1") a in
  fst (Mainport.loading "bad.vsm1" a) = Py.Raise Py.UnicodeDecodeError /\
  Py.keys (Mainport.tabs (Mainport.win a)) = ["Script 1"]%string /\
  Py.keys (Mainport.tabs (Mainport.win a')) = ["Script 1"; "A"]%string /\
  Mainport.tabs (Mainport.win a') <> Mainport.tabs (Mainport.win a).
Proof.
  cbv zeta. repeat split; try (vm_compute; reflexivity).
  intros H. apply (f_equal (@List.length _)) in H.
  vm_compute in H. discriminate H.
Qed.

(** C2, amended: a load that cannot open the archive leaves the window as
    it was.  A load that fails on a member is rejected with an error box,
    but the tabs made for the members before the failing one stay: the
    window is the one reached by adding exactly those tabs. *)
Theorem failed_load_keeps_earlier_tabs (file_path : string) (a : Mainport.App) :
  (Mainport.archive_at file_path a = None ->
   Mainport.win (Py.exec (Mainport.load_from_vsm1 file_path) a)
   = Mainport.win a) /\
  (forall members pre bad post e,
     Mainport.archive_at file_path a = Some members ->
     Mainport.namelist members = pre ++ bad :: post ->
     forallb (fun n => negb (Py.raised (Mainport.fetch members n))) pre = true ->
     Mainport.fetch members bad = Py.Raise e ->
     fst (Mainport.loading file_path a) = Py.Raise e /\
     Mainport.win (Py.exec (Mainport.load_from_vsm1 file_path) a)
     = Mainport.win
         (Py.exec (Py.for_each (map (Py.replace ".vs" "") pre) Mainport.add_tab) a) /\
     Mainport.boxes (Mainport.world (Py.exec (Mainport.load_from_vsm1 file_path) a))
     = Mainport.boxes (Mainport.world a)
       ++ [Mainport.ShowError "Error" "Error loading file: " e]).
Proof.
  split.
  - apply load_unopened_run.
  - intros members pre bad post e Hopen Hnames Hpre Hbad.
    apply (load_fail_run file_path a members pre post bad e Hopen Hnames);
      [|exact Hbad].
    now apply fetch_not_raised.
Qed.

Lemma failed_load_keeps_earlier_tabs_witness :
  let a := snd (Mainport.start Mainport.half_readable) in
  let members := [("A.vs", Mainport.Stored (Mainport.Utf8 "a"));
                  ("B.vs", Mainport.Stored Mainport.NotUtf8);
                  ("C.vs", Mainport.Stored (Mainport.Utf8 "c"))]%string in
  Mainport.archive_at "bad.vsm1" a = Some members /\
  Mainport.namelist members = ["A.vs"%string] ++ "B.vs"%string :: ["C.vs"%string] /\
  forallb (fun n => negb (Py.raised (Mainport.fetch members n))) ["A.vs"%string] = true /\
  Mainport.fetch members "B.vs" = Py.Raise Py.UnicodeDecodeError /\
  Mainport.win (Py.exec (Mainport.load_from_vsm1 "bad.vsm1") a)
  = Mainport.win (Py.exec (Py.for_each ["A"%string] Mainport.add_tab) a).
Proof.
  cbv zeta.
  assert (Hopen : Mainport.archive_at "bad.vsm1"
                    (snd (Mainport.start Mainport.half_readable))
                  = Some [("A.vs", Mainport.Stored (Mainport.Utf8 "a"));
                          ("B.vs", Mainport.Stored Mainport.NotUtf8);
                          ("C.vs", Mainport.Stored (Mainport.Utf8 "c"))]%string)
    by (vm_compute; reflexivity).
  split; [exact Hopen|].
  split; [vm_compute; reflexivity|].
  split; [vm_compute; reflexivity|].
  split; [vm_compute; reflexivity|].
  destruct (failed_load_keeps_earlier_tabs "bad.vsm1"
              (snd (Mainport.start Mainport.half_readable))) as [_ H].
  destruct (H _ ["A.vs"%string] "B.vs"%string ["C.vs"%string]
              Py.UnicodeDecodeError Hopen eq_refl eq_refl eq_refl)
    as (_ & Hwin & _).
  exact Hwin.
Defined.

(* ===================================================================== *)
(** * The claims about tab names *)
(* ===================================================================== *)

Section TabNames.
Import Py Mainport.
Local Open Scope string_scope.

Lemma NoDup_after_add_tabs (names : list string) :
  forall a : App,
    NoDup (keys (tabs (win a))) ->
    NoDup (keys (tabs (win (exec (for_each names add_tab) a)))).
Proof.
  induction names as [|m names IH]; intros a H.
  - exact H.
  - rewrite add_tabs_cons. apply IH.
    rewrite tabs_after_add_tab. now apply keys_setitem_NoDup.
Qed.

(** Whatever the archive holds, the loop of a load amounts to a run of
    [add_tab]s for the window. *)
Lemma load_members_any (vsm1_file : list (string * Member))
  (names : list string) :
  forall a : App,
    exists r s pre,
      for_each names (load_member vsm1_file) a = (r, s) /\
      win s = win (exec (for_each pre add_tab) a).
Proof.
  induction names as [|name names IH]; intros a.
  - exists (Ok tt), a, []. auto.
  - cbn [for_each]. unfold bind at 1.
    destruct (fetch vsm1_file name) as [text|e] eqn:Hf.
    + rewrite (load_member_ok _ _ _ _ Hf).
      set (a1 := exec (add_tab (replace ".vs" "" name)) a).
      set (a2 := exec (print _) a1).
      destruct (IH a2) as (r & s & pre & Hrun & Hwin).
      exists r, s, (replace ".vs" "" name :: pre)%list.
      split; [exact Hrun|].
      rewrite Hwin, add_tabs_cons. fold a1.
      apply (proj2 (proj2 (add_tabs_run pre a1))). reflexivity.
    + rewrite (load_member_fails _ _ _ _ Hf).
      exists (Raise e), a, []. auto.
Qed.

Lemma load_from_vsm1_any (file_path : string) (a : App) :
  exists pre,
    win (exec (load_from_vsm1 file_path) a)
    = win (exec (for_each pre add_tab) a).
Proof.
  destruct (archive_at file_path a) as [members|] eqn:Hopen.
  - unfold load_from_vsm1, try_except, loading, exec, bind.
    rewrite (zip_open_run _ _ _ Hopen).
    destruct (load_members_any members (namelist members) a)
      as (r & s & pre & -> & Hwin).
    exists pre. now destruct r as [[]|e].
  - exists []. now apply load_unopened_run.
Qed.

Lemma save_to_vsm1_win (file_path : string) (a : App) :
  win (exec (save_to_vsm1 file_path) a) = win a.
Proof.
  unfold save_to_vsm1, try_except, saving, zip_create, exec, bind at 1 2,
    get at 1.
  destruct (existsb (String.eqb file_path) (readonly (world a))) eqn:Hw.
  - reflexivity.
  - unfold modify at 1, bind at 1, get at 1. unfold bind.
    match goal with
    | |- context [for_each ?items ?body ?s] =>
        destruct (write_frame file_path items s) as (r & fs & -> & _)
    end.
    now destruct r as [[]|e].
Qed.

Lemma ask_filename_run (a : App) :
  exists answer w, ask_filename a = (Ok answer, {| win := win a; world := w |}).
Proof.
  unfold ask_filename, bind, get.
  destruct a as [w wd]. destruct (dialog wd) as [|answer rest] eqn:E;
    cbn; rewrite E; do 2 eexists; reflexivity.
Qed.

(** No action of the user makes [self.tabs] hold a name twice. *)
Lemma perform_keys_NoDup (act : Action) (a : App) :
  NoDup (keys (tabs (win a))) ->
  NoDup (keys (tabs (win (exec (perform act) a)))).
Proof.
  intros H. destruct act as [[| | |language]|ref b event]; cbn [perform run_command].
  - unfold new_script, exec, bind, get. cbn -[add_tab].
    match goal with
    | |- context [add_tab ?n a] => fold (exec (add_tab n) a)
    end.
    rewrite tabs_after_add_tab. now apply keys_setitem_NoDup.
  - unfold save_as, exec, bind.
    destruct (ask_filename_run a) as (answer & w & ->).
    destruct (String.eqb answer ""); [exact H|].
    fold (exec (save_to_vsm1 answer) {| win := win a; world := w |}).
    now rewrite save_to_vsm1_win.
  - unfold load_file, exec, bind.
    destruct (ask_filename_run a) as (answer & w & ->).
    destruct (String.eqb answer ""); [exact H|].
    fold (exec (load_from_vsm1 answer) {| win := win a; world := w |}).
    destruct (load_from_vsm1_any answer {| win := win a; world := w |})
      as (pre & ->).
    now apply NoDup_after_add_tabs.
  - exact H.
  - unfold exec, bind, get.
    destruct (nth_error (widgets (win a)) ref) as [[| | |g]|]; exact H.
Qed.

Lemma run_keys_NoDup (acts : list Action) :
  forall a : App,
    NoDup (keys (tabs (win a))) ->
    NoDup (keys (tabs (win (run acts a)))).
Proof.
  induction acts as [|act acts IH]; intros a H.
  - exact H.
  - cbn. apply IH. now apply perform_keys_NoDup.
Qed.

End TabNames.

(** The part of C8 that the code keeps: whatever the user does, the
    dictionary [self.tabs] holds every tab name once. *)
Lemma stored_tab_names_are_unique (w : Mainport.World)
  (acts : list Mainport.Action) :
  NoDup (Py.keys (Mainport.tabs (Mainport.win
           (Mainport.run acts (snd (Mainport.start w)))))).
Proof.
  apply run_keys_NoDup.
  unfold Mainport.start, Py.bind. rewrite add_tab_run.
  cbn -[Mainport.built]. repeat constructor. intros [].
Qed.

(** C8: tab names are meant to be unique, and [add_tab] is documented as
    adding a tab "with a unique name".  Run on the program that saves its
    one default tab and loads the file it has just written, the code
    disagrees: the notebook then shows two tabs named "Script 1", and the
    single entry of [self.tabs] stands for the second one only. *)
Theorem loading_own_save_repeats_tab_name :
  let a := Mainport.reload "p.vsm1" Mainport.started in
  Mainport.tab_texts (Mainport.win Mainport.started) = ["Script 1"%string] /\
  Mainport.tab_texts (Mainport.win a) = ["Script 1"; "Script 1"]%string /\
  ~ NoDup (Mainport.tab_texts (Mainport.win a)) /\
  Mainport.notebook (Mainport.win a) = [(0, "Script 1"); (6, "Script 1")]%string /\
  Mainport.tabs (Mainport.win a)
  = [("Script 1"%string,
      {| Mainport.grid := 11; Mainport.left_panel := 7;
         Mainport.right_panel := 9 |})].
Proof.
  cbv zeta.
  assert (T : Mainport.tab_texts
                (Mainport.win (Mainport.reload "p.vsm1" Mainport.started))
              = ["Script 1"; "Script 1"]%string) by (vm_compute; reflexivity).
  split; [vm_compute; reflexivity|].
  split; [exact T|].
  split.
  - rewrite T. intros H. inversion H as [|x l Hin _]. apply Hin. now left.
  - split; vm_compute; reflexivity.
Qed.

(** [new_script] numbers the new tab by the count of stored tabs, so it
    can repeat a name as well: after loading an archive that holds
    "Script 3.vs", the next new script is a second "Script 3". *)
Lemma new_script_repeats_tab_name :
  let w := Mainport.world_with "in.vsm1"
             (Mainport.Zip [("Script 3.vs"%string,
                             Mainport.Stored (Mainport.Utf8 ""))]) in
  let a := Py.exec Mainport.new_script
             (Py.exec (Mainport.load_from_vsm1 "in.vsm1")
                      (snd (Mainport.start w))) in
  Mainport.tab_texts (Mainport.win a)
  = ["Script 1"; "Script 3"; "Script 3"]%string.
Proof. vm_compute. reflexivity. Qed.


(* ===================================================================== *)
(** * What stays true of the window, whatever the user does *)
(* ===================================================================== *)

Section WindowFrames.
Import Py Mainport.
Local Open Scope string_scope.

(** A run of [add_tab]s only appends: widgets, notebook pages (one per
    name, in order) and possibly keys; title, geometry and menu stay. *)
Lemma add_tabs_extend (names : list string) :
  forall a : App,
    let a' := exec (for_each names add_tab) a in
    (exists ws, widgets (win a') = (widgets (win a) ++ ws)%list) /\
    (exists pages, notebook (win a') = (notebook (win a) ++ pages)%list /\
                   map snd pages = names) /\
    (exists ks, keys (tabs (win a')) = (keys (tabs (win a)) ++ ks)%list) /\
    menu (win a') = menu (win a) /\
    title (win a') = title (win a) /\
    geometry (win a') = geometry (win a).
Proof.
  induction names as [|m names IH]; intros a; cbv zeta.
  - cbn. repeat split; exists []; now rewrite app_nil_r.
  - rewrite add_tabs_cons.
    destruct (IH (exec (add_tab m) a))
      as ((ws & Hw) & (pages & Hn & Hp) & (ks & Hk) & Hm & Ht & Hg).
    rewrite Hw, Hn, Hk, Hm, Ht, Hg.
    unfold exec at 1 2 3 4 5 6. rewrite add_tab_run. cbv zeta.
    cbn [snd win widgets notebook tabs menu title geometry].
    repeat split.
    + eexists. now rewrite <- app_assoc.
    + exists ((List.length (widgets (win a)), m) :: pages)%list.
      split; [now rewrite <- app_assoc|].
      cbn [map snd]. f_equal. exact Hp.
    + destruct (in_dec string_dec m (keys (tabs (win a)))) as [Hin | Hout].
      * rewrite keys_setitem_present by assumption. now exists ks.
      * rewrite keys_setitem_absent by assumption.
        exists (m :: ks)%list. now rewrite <- app_assoc.
Qed.

(** The loop of a load, whatever the members are: it goes through a
    prefix of the member names, adds their tabs, and prints their lines. *)
Lemma load_members_trace (vsm1_file : list (string * Member))
  (names : list string) :
  forall a : App,
    exists r s pre out,
      for_each names (load_member vsm1_file) a = (r, s) /\
      win s = win (exec (for_each (map (replace ".vs" "") pre) add_tab) a) /\
      world s = set_stdout (stdout (world a) ++ out)%list (world a) /\
      (exists rest, names = (pre ++ rest)%list) /\
      (r = Ok tt -> pre = names).
Proof.
  induction names as [|name names IH]; intros a.
  - exists (Ok tt), a, [], []. cbn. rewrite app_nil_r.
    destruct a as [w [so bx dl fs ro]]. repeat split. now exists [].
  - cbn [for_each]. unfold bind at 1.
    destruct (fetch vsm1_file name) as [text|e] eqn:Hf.
    + rewrite (load_member_ok _ _ _ _ Hf).
      set (a1 := exec (add_tab (replace ".vs" "" name)) a).
      set (a2 := exec (print _) a1).
      destruct (IH a2) as (r & s & pre & out & Hrun & Hwin & Hworld & (rest & Hrest) & Hall).
      exists r, s, (name :: pre)%list,
        (("Loaded " ++ name ++ ": " ++ text)%string :: out)%list.
      split; [exact Hrun|]. split; [|split; [|split]].
      * rewrite Hwin. cbn [map]. rewrite add_tabs_cons. fold a1.
        apply (proj2 (proj2 (add_tabs_run _ a1))). reflexivity.
      * rewrite Hworld. subst a2 a1. unfold exec. rewrite add_tab_run.
        cbn. unfold set_stdout. cbn. rewrite <- app_assoc. reflexivity.
      * exists rest. cbn. now rewrite Hrest.
      * intros Hr. now rewrite (Hall Hr).
    + rewrite (load_member_fails _ _ _ _ Hf).
      exists (Raise e), a, [], []. cbn. rewrite app_nil_r.
      destruct a as [w [so bx dl fs ro]]. repeat split.
      * now exists (name :: names)%list.
      * discriminate.
Qed.

End WindowFrames.


Section WindowRuns.
Import Py Mainport.
Local Open Scope string_scope.

(** The line printed for a member that reads and decodes. *)
Lemma load_members_lines (vsm1_file : list (string * Member))
  (names : list string) :
  forall a : App,
    (forall n, In n names -> exists text, fetch vsm1_file n = Ok text) ->
    exists s,
      for_each names (load_member vsm1_file) a = (Ok tt, s) /\
      win s = win (exec (for_each (map (replace ".vs" "") names) add_tab) a) /\
      world s
      = set_stdout
          (stdout (world a)
           ++ map (fun n => match fetch vsm1_file n with
                            | Ok text => ("Loaded " ++ n ++ ": " ++ text)%string
                            | Raise _ => ""%string
                            end) names)%list
          (world a).
Proof.
  induction names as [|name names IH]; intros a Hok.
  - exists a. cbn. rewrite app_nil_r.
    destruct a as [w [so bx dl fs ro]]. auto.
  - destruct (Hok name (or_introl eq_refl)) as (text & Hf).
    cbn [map]. rewrite add_tabs_cons.
    cbn [for_each]. unfold bind at 1.
    rewrite (load_member_ok _ _ _ _ Hf), Hf.
    set (a1 := exec (add_tab (replace ".vs" "" name)) a).
    set (a2 := exec (print _) a1).
    destruct (IH a2) as (s & Hrun & Hwin & Hworld).
    { intros n Hn. apply Hok. now right. }
    exists s. split; [exact Hrun | split].
    + rewrite Hwin.
      apply (proj2 (proj2 (add_tabs_run _ a1))). reflexivity.
    + rewrite Hworld. subst a2 a1. unfold exec. rewrite add_tab_run.
      cbn. unfold set_stdout. cbn. rewrite <- app_assoc. reflexivity.
Qed.

Lemma tab_texts_after_add_tabs (names : list string) (a : App) :
  tab_texts (win (exec (for_each names add_tab) a))
  = (tab_texts (win a) ++ names)%list.
Proof.
  destruct (add_tabs_extend names a) as (_ & (pages & Hn & Hp) & _).
  unfold tab_texts. now rewrite Hn, map_app, Hp.
Qed.

Lemma saving_refused (file_path : string) (a : App) :
  existsb (String.eqb file_path) (readonly (world a)) = true ->
  saving file_path a = (Raise OSError, a).
Proof.
  intros Hw. unfold saving, zip_create, bind, get. now rewrite Hw.
Qed.

(** The handlers of [try] ... [except Exception] always return. *)
Lemma save_to_vsm1_returns (file_path : string) (a : App) :
  fst (save_to_vsm1 file_path a) = Ok tt.
Proof.
  unfold save_to_vsm1, try_except.
  now destruct (saving file_path a) as [[[]|e] s].
Qed.

Lemma load_from_vsm1_returns (file_path : string) (a : App) :
  fst (load_from_vsm1 file_path a) = Ok tt.
Proof.
  unfold load_from_vsm1, try_except.
  now destruct (loading file_path a) as [[[]|e] s].
Qed.

End WindowRuns.

Section SaveFrame.
Import Py Mainport.
Local Open Scope string_scope.

(** A save, whatever becomes of it: it returns, shows one message box,
    and changes no file but the one at its path, which holds an archive
    afterwards unless the path cannot be written. *)
Lemma save_to_vsm1_frame (file_path : string) (a : App) :
  exists box fs,
    save_to_vsm1 file_path a
    = (Ok tt,
       {| win := win a;
          world := {| stdout := stdout (world a);
                      boxes := (boxes (world a) ++ [box])%list;
                      dialog := dialog (world a);
                      files := fs;
                      readonly := readonly (world a) |} |}) /\
    (forall p, p <> file_path -> getitem p fs = getitem p (files (world a))) /\
    (if existsb (String.eqb file_path) (readonly (world a))
     then fs = files (world a) /\
          box = ShowError "Error" "Error saving file: " OSError
     else exists members, getitem file_path fs = Some (Zip members)).
Proof.
  unfold save_to_vsm1, try_except, saving, zip_create, bind at 1 2, get at 1.
  destruct (existsb (String.eqb file_path) (readonly (world a))) eqn:Hw.
  - exists (ShowError "Error" "Error saving file: " OSError), (files (world a)).
    split; [now destruct a as [w [so bx dl fs ro]]|]. now split.
  - unfold modify at 1, bind at 1, get at 1. unfold bind.
    match goal with
    | |- context [for_each ?items ?body ?s] =>
        destruct (write_frame file_path items s) as (r & fs & -> & Hfs & Hzip)
    end.
    destruct (Hzip []) as (more & Hmore); [cbn; apply getitem_setitem_same|].
    destruct r as [[]|e]; eexists _, fs; (split; [reflexivity|]);
      (split; [|now exists more]);
      intros p Hp; rewrite (Hfs p Hp); cbn;
      apply getitem_setitem_other; congruence.
Qed.

End SaveFrame.


Section WindowInvariants.
Import Py Mainport.
Local Open Scope string_scope.

(** No handler of the canvas changes the frame it lives in. *)
Lemma deliver_master (g : InfiniteGrid) (be : Binding * Event) :
  master (deliver g be) = master g.
Proof.
  destruct be as [b event]. unfold deliver. cbn [fst snd].
  destruct b; cbn [handler]; try reflexivity.
  - pose proof (mouse_move_run event g) as R.
    destruct (last_mouse_pos g) as [[last_x last_y]|].
    + cbv zeta in R. destruct R as (ls & [-> | ->]); reflexivity.
    + unfold exec. now rewrite R.
  - pose proof (wheel_event_run event g) as R. cbv zeta in R.
    destruct (_ && _).
    + destruct R as (ls & ->). reflexivity.
    + unfold exec. now rewrite R.
Qed.

(** What an action can do to the window: add tabs, or replace one canvas
    by the same canvas after an event. *)
Lemma perform_win (act : Action) (a : App) :
  (exists names,
     win (exec (perform act) a) = win (exec (for_each names add_tab) a)) \/
  (exists ref g be,
     nth_error (widgets (win a)) ref = Some (Canvas g) /\
     win (exec (perform act) a)
     = set_widgets (set_nth ref (Canvas (deliver g be)) (widgets (win a)))
                   (win a)).
Proof.
  destruct act as [[| | |language]|ref b event]; cbn [perform run_command].
  - left. eexists [_]. rewrite add_tabs_cons.
    unfold new_script, exec, bind, get. cbn -[add_tab]. reflexivity.
  - left. exists []. unfold save_as, exec, bind.
    destruct (ask_filename_run a) as (answer & w & ->).
    destruct (String.eqb answer ""); [reflexivity|].
    fold (exec (save_to_vsm1 answer) {| win := win a; world := w |}).
    now rewrite save_to_vsm1_win.
  - left. unfold load_file, exec, bind.
    destruct (ask_filename_run a) as (answer & w & ->).
    destruct (String.eqb answer ""); [now exists []|].
    fold (exec (load_from_vsm1 answer) {| win := win a; world := w |}).
    destruct (load_from_vsm1_any answer {| win := win a; world := w |})
      as (pre & ->).
    exists pre. apply (proj2 (proj2 (add_tabs_run pre a))). reflexivity.
  - left. now exists [].
  - unfold exec, bind, get. cbn.
    destruct (nth_error (widgets (win a)) ref) as [[| | |g]|] eqn:E;
      try (left; now exists []).
    right. exists ref, g, (b, event). auto.
Qed.

(** A property of the window that [add_tab] keeps, and that is kept when
    a canvas is replaced by one in the same frame, holds all along. *)
Lemma run_invariant (P : MainWindow -> Prop) :
  (forall name a, P (win a) -> P (win (exec (add_tab name) a))) ->
  (forall w ref g g',
     P w -> nth_error (widgets w) ref = Some (Canvas g) ->
     master g' = master g ->
     P (set_widgets (set_nth ref (Canvas g') (widgets w)) w)) ->
  forall acts a, P (win a) -> P (win (run acts a)).
Proof.
  intros Hadd Hcanvas.
  assert (Hadds : forall names a, P (win a) ->
                    P (win (exec (for_each names add_tab) a))).
  { induction names as [|m names IH]; intros a H; [exact H|].
    rewrite add_tabs_cons. apply IH, Hadd, H. }
  induction acts as [|act acts IH]; intros a H; [exact H|].
  cbn. apply IH.
  destruct (perform_win act a) as [(names & ->) | (ref & g & be & Hg & ->)].
  - now apply Hadds.
  - apply (Hcanvas _ _ g); [exact H | exact Hg | apply deliver_master].
Qed.

Lemma win_after_start (w : World) :
  win (snd (start w))
  = {| title := "VSmesh: Visual Scripting Modular Extensible System for Holography";
       geometry := "1200x800";
       widgets := [PageFrame; Panel 0 0;
                   Textbox 1 "Left Panel: Functions and Variables";
                   Panel 0 2;
                   Textbox 3 "Right Panel: Generated Code";
                   Canvas (built 0)];
       notebook := [(0, "Script 1")];
       tabs := [("Script 1", {| grid := 5; left_panel := 1; right_panel := 3 |})];
       menu := [ ("File", [ ("New Script", NewScript);
                            ("Save As...", SaveAs);
                            ("Load", LoadFile) ]);
                 ("Generate Code", [ ("GDScript", GenerateCode "GDScript");
                                     ("Python", GenerateCode "Python") ]) ] |}.
Proof.
  unfold start, bind. rewrite add_tab_run. reflexivity.
Qed.

Lemma nth_error_set_nth {A} (l : list A) (n i : nat) (v : A) :
  nth_error (set_nth n v l) i
  = if Nat.eqb i n
    then match nth_error l i with Some _ => Some v | None => None end
    else nth_error l i.
Proof.
  revert n i. induction l as [|x l IH]; intros n i.
  - destruct n, i; cbn; try reflexivity; now destruct (Nat.eqb i n).
  - destruct n, i; cbn; try reflexivity. apply IH.
Qed.

End WindowInvariants.


Section WindowInvariantProofs.
Import Py Mainport.
Local Open Scope string_scope.

Lemma add_tab_names_agree (name : string) (a : App) :
  (forall n, In n (keys (tabs (win a))) <-> In n (tab_texts (win a))) ->
  forall n, In n (keys (tabs (win (exec (add_tab name) a))))
            <-> In n (tab_texts (win (exec (add_tab name) a))).
Proof.
  intros H n. rewrite tabs_after_add_tab, in_keys_setitem.
  unfold exec. rewrite add_tab_run. cbv zeta. unfold tab_texts.
  cbn [snd win notebook]. rewrite map_app, in_app_iff. cbn.
  specialize (H n). unfold tab_texts in H. intuition congruence.
Qed.

Lemma add_tab_keeps_linked (name : string) (a : App) :
  tabs_linked (win a) -> tabs_linked (win (exec (add_tab name) a)).
Proof.
  intros H n data. unfold exec. rewrite add_tab_run. cbv zeta.
  cbn [snd win tabs notebook widgets].
  set (len := List.length (widgets (win a))).
  destruct (string_dec name n) as [<- | Hne].
  - rewrite getitem_setitem_same. intros [= <-].
    exists len, (built len). split; [reflexivity|].
    split; [apply in_or_app; right; now left|].
    assert (E : forall k, nth_error
                  (widgets (win a)
                   ++ [PageFrame; Panel len 0;
                       Textbox (len + 1) "Left Panel: Functions and Variables";
                       Panel len 2;
                       Textbox (len + 3) "Right Panel: Generated Code";
                       Canvas (built len)])%list (len + k)
                = nth_error
                    [PageFrame; Panel len 0;
                     Textbox (len + 1) "Left Panel: Functions and Variables";
                     Panel len 2;
                     Textbox (len + 3) "Right Panel: Generated Code";
                     Canvas (built len)] k).
    { intros k. rewrite nth_error_app2 by (unfold len; lia).
      f_equal. unfold len. lia. }
    pose proof (E 0) as E0. rewrite Nat.add_0_r in E0.
    split; [now rewrite E0|].
    split; [now rewrite E|].
    split; [now rewrite E|].
    split; [now rewrite E|].
    destruct (built_attributes len) as (ls & ->). reflexivity.
  - rewrite (getitem_setitem_other name n) by exact Hne. intros Hget.
    destruct (H n data Hget) as (f & g & Hd & Hin & H0 & H1 & H3 & H5 & Hm).
    exists f, g. split; [exact Hd|]. split; [apply in_or_app; now left|].
    repeat split; try exact Hm;
      (rewrite nth_error_app1; [assumption | apply nth_error_Some; congruence]).
Qed.

Lemma canvas_event_keeps_linked (w : MainWindow) (ref : nat)
  (g g' : InfiniteGrid) :
  tabs_linked w ->
  nth_error (widgets w) ref = Some (Canvas g) ->
  master g' = master g ->
  tabs_linked (set_widgets (set_nth ref (Canvas g') (widgets w)) w).
Proof.
  intros H Href Hmaster n data Hget. cbn in Hget.
  destruct (H n data Hget) as (f & g0 & Hd & Hin & H0 & H1 & H3 & H5 & Hm).
  cbn [set_widgets widgets notebook tabs].
  assert (Other : forall i v, nth_error (widgets w) i = Some v ->
                    (forall c, v <> Canvas c) ->
                    nth_error (set_nth ref (Canvas g') (widgets w)) i = Some v).
  { intros i v Hi Hv. rewrite nth_error_set_nth.
    destruct (Nat.eqb_spec i ref) as [-> | _]; [|exact Hi].
    rewrite Href in Hi. injection Hi as <-. now destruct (Hv g). }
  destruct (Nat.eqb_spec (f + 5) ref) as [Heq | Hne].
  - exists f, g'. split; [exact Hd|]. split; [exact Hin|].
    split; [apply Other; [exact H0 | discriminate]|].
    split; [apply Other; [exact H1 | discriminate]|].
    split; [apply Other; [exact H3 | discriminate]|].
    split.
    + rewrite nth_error_set_nth, Heq, Nat.eqb_refl, Href. reflexivity.
    + rewrite Hmaster. rewrite Heq, Href in H5. now injection H5 as <-.
  - exists f, g0. split; [exact Hd|]. split; [exact Hin|].
    split; [apply Other; [exact H0 | discriminate]|].
    split; [apply Other; [exact H1 | discriminate]|].
    split; [apply Other; [exact H3 | discriminate]|].
    split; [|exact Hm].
    rewrite nth_error_set_nth.
    destruct (Nat.eqb_spec (f + 5) ref); [contradiction | exact H5].
Qed.

(** The name given to the [i]-th script. *)
Lemma script_name_inj (i j : nat) :
  "Script " ++ str_of_nat i = "Script " ++ str_of_nat j -> i = j.
Proof.
  cbn. intros [= H]. unfold str_of_nat in H.
  apply DecimalNat.Unsigned.to_uint_inj.
  pose proof (NilEmpty.usu (Nat.to_uint i)) as Hi.
  rewrite H, NilEmpty.usu in Hi. now injection Hi.
Qed.

Lemma new_script_exec (a : App) :
  exec (perform (Pick NewScript)) a
  = exec (add_tab ("Script " ++ str_of_nat (List.length (tabs (win a)) + 1))) a.
Proof. reflexivity. Qed.

Lemma new_scripts_run (n : nat) :
  forall (a : App) (k : nat),
    keys (tabs (win a))
    = map (fun i => "Script " ++ str_of_nat i) (seq 1 k) ->
    tab_texts (win a)
    = map (fun i => "Script " ++ str_of_nat i) (seq 1 k) ->
    let a' := run (repeat (Pick NewScript) n) a in
    keys (tabs (win a'))
    = map (fun i => "Script " ++ str_of_nat i) (seq 1 (k + n)) /\
    tab_texts (win a')
    = map (fun i => "Script " ++ str_of_nat i) (seq 1 (k + n)).
Proof.
  induction n as [|n IH]; intros a k Hk Ht; cbv zeta.
  - rewrite Nat.add_0_r. auto.
  - cbn [repeat run fold_left].
    replace (k + S n) with (S k + n) by lia.
    apply IH.
    + rewrite new_script_exec, tabs_after_add_tab.
      assert (Hlen : List.length (tabs (win a)) = k).
      { rewrite <- (length_map fst). fold (keys (tabs (win a))).
        now rewrite Hk, length_map, length_seq. }
      rewrite Hlen, keys_setitem_absent.
      * rewrite Hk, seq_S, map_app. cbn. now rewrite (Nat.add_comm k 1).
      * rewrite Hk. intros Hin. apply in_map_iff in Hin as (i & Hi & Hseq).
        apply script_name_inj in Hi. apply in_seq in Hseq. lia.
    + rewrite new_script_exec.
      change (exec (add_tab ?m) a)
        with (exec (for_each [] add_tab) (exec (add_tab m) a)).
      rewrite <- add_tabs_cons, tab_texts_after_add_tabs.
      assert (Hlen : List.length (tabs (win a)) = k).
      { rewrite <- (length_map fst). fold (keys (tabs (win a))).
        now rewrite Hk, length_map, length_seq. }
      rewrite Hlen, Ht, seq_S, map_app. cbn. now rewrite (Nat.add_comm k 1).
Qed.

Lemma NoDup_map_injective {A B} (f : A -> B) (l : list A) :
  (forall x y, f x = f y -> x = y) -> NoDup l -> NoDup (map f l).
Proof.
  intros Hinj Hnd. induction Hnd as [|x l Hx Hnd IH]; cbn; constructor.
  - rewrite in_map_iff. intros (y & Hy & Hin).
    apply Hinj in Hy. subst y. contradiction.
  - exact IH.
Qed.

End WindowInvariantProofs.

Section WindowShell.
Import Py Mainport.
Local Open Scope string_scope.














End WindowShell.

Section MainWindowFacts.
Import Py Main.
Local Open Scope string_scope.





End MainWindowFacts.

(** Running the handlers in the sample view: one wheel step down, a press
    at (10, 10) and a move to (50, 35) with the left button held ask the
    scroll bars for -368.0 and -269.25. *)
Lemma sample_drag_values :
  let g := Main.deliver_all Main.sample_qt Main.built
             [Main.Wheel {| Main.angleDelta_y := -120 |};
              Main.MousePress (Main.mouse Main.LeftButton [Main.LeftButton] 10 10);
              Main.MouseMove (Main.mouse Main.NoButton [Main.LeftButton] 50 35)] in
  Main.scale_factor g = 0.8%float /\
  Main.hbar g = Some (Py.Float (-368)%float) /\
  Main.vbar g = Some (Py.Float (-269.25)%float).
Proof. cbv zeta. split; [|split]; vm_compute; reflexivity. Qed.

(* ===================================================================== *)
(** * The claims about the save format and the shell *)
(* ===================================================================== *)







(* ===================================================================== *)
(** * Further properties of the tkinter window *)
(* ===================================================================== *)


(** X1: a load only ever adds.  Whatever the file at the path is, and
    whether the load succeeds or fails, [load_from_vsm1] returns normally;
    the widgets, notebook pages and stored tab names the window had are
    all still there, in place, with new ones appended after them; the menu
    is the same; the files on disk are the same; and exactly one message
    box has been shown. *)
Theorem load_only_appends (file_path : string) (a : Mainport.App) :
  let a' := Py.exec (Mainport.load_from_vsm1 file_path) a in
  fst (Mainport.load_from_vsm1 file_path a) = Py.Ok tt /\
  (exists ws, Mainport.widgets (Mainport.win a')
              = Mainport.widgets (Mainport.win a) ++ ws) /\
  (exists pages, Mainport.notebook (Mainport.win a')
                 = Mainport.notebook (Mainport.win a) ++ pages) /\
  (exists ks, Py.keys (Mainport.tabs (Mainport.win a'))
              = Py.keys (Mainport.tabs (Mainport.win a)) ++ ks) /\
  Mainport.menu (Mainport.win a') = Mainport.menu (Mainport.win a) /\
  Mainport.files (Mainport.world a') = Mainport.files (Mainport.world a) /\
  (exists box, Mainport.boxes (Mainport.world a')
               = Mainport.boxes (Mainport.world a) ++ [box]).
Proof.
  cbv zeta.
  unfold Mainport.load_from_vsm1, Py.try_except, Mainport.loading, Py.exec, Py.bind.
  destruct (Mainport.archive_at file_path a) as [members|] eqn:Hopen.
  - rewrite (zip_open_run _ _ _ Hopen).
    destruct (load_members_trace members (Mainport.namelist members) a)
      as (r & s & pre & out & -> & Hwin & Hworld & _ & _).
    destruct (add_tabs_extend (map (Py.replace ".vs" "") pre) a)
      as (Hw & (pages & Hn & _) & Hk & Hm & _ & _).
    fold (Py.exec (Py.for_each (map (Py.replace ".vs" "") pre) Mainport.add_tab) a)
      in Hwin.
    destruct r as [[]|e]; cbn; rewrite Hwin, Hworld;
      (split; [reflexivity|]); (split; [exact Hw|]);
      (split; [now exists pages|]); (split; [exact Hk|]);
      (split; [exact Hm|]); (split; [reflexivity|]); eexists; reflexivity.
  - destruct (zip_open_fails _ _ Hopen) as (e & ->). cbn.
    split; [reflexivity|].
    split; [exists []; now rewrite app_nil_r|].
    split; [exists []; now rewrite app_nil_r|].
    split; [exists []; now rewrite app_nil_r|].
    split; [reflexivity|]. split; [reflexivity|]. eexists; reflexivity.
Qed.

(** X2: a load whose members all read and decode adds one notebook page
    per member, in the order of the archive and whatever the member is
    called: the page text is the member name with every [".vs"] removed.
    It prints one line per member and ends with the box "File loaded
    successfully.". *)
Theorem load_adds_a_page_per_member (file_path : string) (a : Mainport.App)
  (members : list (string * Mainport.Member)) :
  Mainport.archive_at file_path a = Some members ->
  forallb (fun n => negb (Py.raised (Mainport.fetch members n)))
          (Mainport.namelist members) = true ->
  let a' := Py.exec (Mainport.load_from_vsm1 file_path) a in
  Mainport.tab_texts (Mainport.win a')
  = Mainport.tab_texts (Mainport.win a)
    ++ map (Py.replace ".vs" "") (Mainport.namelist members) /\
  Mainport.stdout (Mainport.world a')
  = Mainport.stdout (Mainport.world a)
    ++ map (fun n => match Mainport.fetch members n with
                     | Py.Ok text => ("Loaded " ++ n ++ ": " ++ text)%string
                     | Py.Raise _ => ""%string
                     end) (Mainport.namelist members) /\
  Mainport.boxes (Mainport.world a')
  = Mainport.boxes (Mainport.world a)
    ++ [Mainport.ShowInfo "Load" "File loaded successfully."].
Proof.
  intros Hopen Hok. cbv zeta.
  unfold Mainport.load_from_vsm1, Py.try_except, Mainport.loading, Py.exec, Py.bind.
  rewrite (zip_open_run _ _ _ Hopen).
  destruct (load_members_lines members (Mainport.namelist members) a
              (fetch_not_raised _ _ Hok)) as (s & -> & Hwin & Hworld).
  cbn. rewrite Hwin, Hworld.
  fold (Py.exec (Py.for_each (map (Py.replace ".vs" "")
                                (Mainport.namelist members)) Mainport.add_tab) a).
  rewrite tab_texts_after_add_tabs. auto.
Qed.

Lemma load_adds_a_page_per_member_witness :
  let w := Mainport.world_with "in.vsm1"
             (Mainport.Zip [("notes.txt"%string, Mainport.Stored (Mainport.Utf8 "n"));
                            ("Script 1.vs"%string, Mainport.Stored (Mainport.Utf8 "s"))]) in
  let a := snd (Mainport.start w) in
  Mainport.tab_texts
    (Mainport.win (Py.exec (Mainport.load_from_vsm1 "in.vsm1") a))
  = ["Script 1"; "notes.txt"; "Script 1"]%string.
Proof.
  cbv zeta.
  assert (Hopen : Mainport.archive_at "in.vsm1"
            (snd (Mainport.start
               (Mainport.world_with "in.vsm1"
                  (Mainport.Zip [("notes.txt"%string, Mainport.Stored (Mainport.Utf8 "n"));
                                 ("Script 1.vs"%string, Mainport.Stored (Mainport.Utf8 "s"))]))))
          = Some [("notes.txt"%string, Mainport.Stored (Mainport.Utf8 "n"));
                  ("Script 1.vs"%string, Mainport.Stored (Mainport.Utf8 "s"))])
    by (vm_compute; reflexivity).
  rewrite (proj1 (load_adds_a_page_per_member "in.vsm1" _ _ Hopen eq_refl)).
  vm_compute. reflexivity.
Defined.

(** X3: a save returns normally, shows exactly one message box, leaves
    the window, standard output and the pending dialog answers as they
    are, and touches no file but the one at the chosen path.  When that
    path cannot be written, no file changes at all and the error box
    reports the [OSError]; otherwise the path holds an archive
    afterwards, whether the save went through or stopped on the way. *)
Theorem save_touches_one_path (file_path : string) (a : Mainport.App) :
  let a' := Py.exec (Mainport.save_to_vsm1 file_path) a in
  fst (Mainport.save_to_vsm1 file_path a) = Py.Ok tt /\
  Mainport.win a' = Mainport.win a /\
  Mainport.stdout (Mainport.world a') = Mainport.stdout (Mainport.world a) /\
  Mainport.dialog (Mainport.world a') = Mainport.dialog (Mainport.world a) /\
  (exists box, Mainport.boxes (Mainport.world a')
               = Mainport.boxes (Mainport.world a) ++ [box]) /\
  (forall p, p <> file_path ->
     Py.getitem p (Mainport.files (Mainport.world a'))
     = Py.getitem p (Mainport.files (Mainport.world a))) /\
  (if existsb (String.eqb file_path) (Mainport.readonly (Mainport.world a))
   then Mainport.files (Mainport.world a') = Mainport.files (Mainport.world a) /\
        Mainport.boxes (Mainport.world a')
        = Mainport.boxes (Mainport.world a)
          ++ [Mainport.ShowError "Error" "Error saving file: " Py.OSError]
   else exists members, Mainport.archive_at file_path a' = Some members).
Proof.
  cbv zeta. unfold Py.exec, Mainport.archive_at.
  destruct (save_to_vsm1_frame file_path a) as (box & fs & -> & Hfs & Hend).
  cbn [fst snd Mainport.win Mainport.world Mainport.stdout
       Mainport.dialog Mainport.boxes Mainport.files].
  split; [reflexivity|]. split; [reflexivity|]. split; [reflexivity|].
  split; [reflexivity|]. split; [now exists box|]. split; [exact Hfs|].
  destruct (existsb _ _).
  - destruct Hend as [-> ->]. now split.
  - destruct Hend as (members & ->). now exists members.
Qed.

(** X4: no menu command lets an exception out: [new_script],
    [save_as], [load_file] and [generate_code] return normally in every
    state of the program and of the disk. *)
Theorem menu_commands_return (c : Mainport.Command) (a : Mainport.App) :
  fst (Mainport.run_command c a) = Py.Ok tt.
Proof.
  destruct c as [| | |language]; cbn [Mainport.run_command].
  - unfold Mainport.new_script, Py.bind, Py.get. now rewrite add_tab_run.
  - unfold Mainport.save_as, Py.bind.
    destruct (ask_filename_run a) as (answer & w & ->).
    destruct (String.eqb answer ""); [reflexivity|].
    apply save_to_vsm1_returns.
  - unfold Mainport.load_file, Py.bind.
    destruct (ask_filename_run a) as (answer & w & ->).
    destruct (String.eqb answer ""); [reflexivity|].
    apply load_from_vsm1_returns.
  - reflexivity.
Qed.

(** X5: a cancelled file dialog (no answer, or the empty answer) makes
    [save_as] and [load_file] do nothing but use up that answer: window,
    files, message boxes and standard output stay as they are. *)
Theorem cancelled_dialog_does_nothing (a : Mainport.App) :
  hd ""%string (Mainport.dialog (Mainport.world a)) = ""%string ->
  let a' := Mainport.set_world
              (Mainport.set_dialog (tl (Mainport.dialog (Mainport.world a)))) a in
  Mainport.save_as a = (Py.Ok tt, a') /\
  Mainport.load_file a = (Py.Ok tt, a').
Proof.
  intros Hd. cbv zeta. destruct a as [w [so bx dl fs ro]].
  cbn in Hd.
  unfold Mainport.save_as, Mainport.load_file, Mainport.ask_filename,
    Py.bind, Py.get.
  destruct dl as [|answer rest]; cbn.
  - split; reflexivity.
  - cbn in Hd. subst answer. split; reflexivity.
Qed.

Lemma cancelled_dialog_does_nothing_witness :
  hd ""%string (Mainport.dialog (Mainport.world Mainport.started)) = ""%string /\
  Mainport.win (Py.exec Mainport.save_as Mainport.started)
  = Mainport.win Mainport.started.
Proof.
  assert (Hd : hd ""%string (Mainport.dialog (Mainport.world Mainport.started))
               = ""%string) by (vm_compute; reflexivity).
  split; [exact Hd|].
  unfold Py.exec.
  rewrite (proj1 (cancelled_dialog_does_nothing Mainport.started Hd)).
  reflexivity.
Defined.

(** X6: as long as the user only asks for new scripts, the tabs are
    numbered in order and no name repeats: after [n] New Script commands
    on a program just started, the notebook pages and the stored names are
    "Script 1", ..., "Script n+1". *)
Theorem new_scripts_are_numbered (w : Mainport.World) (n : nat) :
  let a := Mainport.run (repeat (Mainport.Pick Mainport.NewScript) n)
                        (snd (Mainport.start w)) in
  Mainport.tab_texts (Mainport.win a)
  = map (fun i => ("Script " ++ Py.str_of_nat i)%string) (seq 1 (S n)) /\
  Py.keys (Mainport.tabs (Mainport.win a))
  = map (fun i => ("Script " ++ Py.str_of_nat i)%string) (seq 1 (S n)) /\
  NoDup (Mainport.tab_texts (Mainport.win a)).
Proof.
  cbv zeta.
  destruct (new_scripts_run n (snd (Mainport.start w)) 1) as [Hk Ht].
  - rewrite win_after_start. reflexivity.
  - rewrite win_after_start. reflexivity.
  - cbv zeta in Hk, Ht. cbn [Nat.add] in Hk, Ht.
    split; [exact Ht | split; [exact Hk|]].
    rewrite Ht. apply NoDup_map_injective.
    + intros i j. apply script_name_inj.
    + apply seq_NoDup.
Qed.

(** X7: every stored tab name stands for the widgets of one notebook
    page that carries the name.  Whatever the user does, the references
    kept under a name are those of a page frame [f] shown under that name:
    the panels at [f+1] and [f+3] and the canvas at [f+5], all of which
    exist, and the canvas still has [f] as its master. *)
Theorem stored_tabs_are_linked (w : Mainport.World)
  (acts : list Mainport.Action) :
  Mainport.tabs_linked
    (Mainport.win (Mainport.run acts (snd (Mainport.start w)))).
Proof.
  apply (run_invariant Mainport.tabs_linked).
  - intros name a. apply add_tab_keeps_linked.
  - intros w0 ref g g'. apply canvas_event_keeps_linked.
  - rewrite win_after_start. intros n data. cbn [Mainport.tabs Py.getitem].
    destruct (String.eqb "Script 1" n) eqn:E; [|discriminate].
    apply String.eqb_eq in E. subst n. intros [= <-].
    exists 0, (Mainport.built 0).
    cbn [Mainport.notebook Mainport.widgets nth_error Nat.add].
    split; [reflexivity|]. split; [now left|].
    do 4 (split; [reflexivity|]).
    destruct (built_attributes 0) as (ls & ->). reflexivity.
Qed.


(* ===================================================================== *)
(** * Further properties of the two canvases *)
(* ===================================================================== *)

Section CanvasFrames.
Import Py.

Lemma Mainport_draw_grid_forgets_items (ls : list Mainport.Line)
  (g : Mainport.InfiniteGrid) :
  Mainport.draw_grid (Mainport.set_items ls g) = Mainport.draw_grid g.
Proof. reflexivity. Qed.

Lemma Main_draw_grid_forgets_lines (ls : list Main.QLineF)
  (g : Main.InfiniteGrid) :
  Main.draw_grid (Main.set_lines ls g) = Main.draw_grid g.
Proof. reflexivity. Qed.

Lemma motion_without_press (moves : list Mainport.Event)
  (g : Mainport.InfiniteGrid) :
  Mainport.last_mouse_pos g = None ->
  Mainport.deliver_all g (map (pair Mainport.B1Motion) moves) = g.
Proof.
  intros Hg. induction moves as [|e moves IH]; [reflexivity|].
  cbn [map Mainport.deliver_all fold_left].
  replace (Mainport.deliver g (Mainport.B1Motion, e)) with g; [exact IH|].
  unfold Mainport.deliver, exec. cbn [fst snd Mainport.handler].
  pose proof (mouse_move_run e g) as R. rewrite Hg in R. now rewrite R.
Qed.

Variable qt : Main.Qt.

(** Once assigned, [last_mouse_pos] is never taken away. *)
Lemma Main_deliver_keeps_last (g : Main.InfiniteGrid) (ev : Main.QEvent) :
  Main.last_mouse_pos g <> None ->
  Main.last_mouse_pos (Main.deliver qt g ev) <> None.
Proof.
  intros Hg. unfold Main.deliver. destruct ev as [e|e|e|e]; cbn [Main.handle].
  - pose proof (wheelEvent_run e g) as R. cbv zeta in R.
    destruct (_ && _).
    + destruct R as (ls & ->). exact Hg.
    + unfold exec. now rewrite R.
  - unfold Main.mousePressEvent, exec.
    destruct (Main.is_left (Main.button e)); [discriminate | exact Hg].
  - unfold exec. rewrite mouseMoveEvent_run.
    destruct (existsb Main.is_left (Main.buttons e)); [|exact Hg].
    destruct (Main.last_mouse_pos g) as [last|] eqn:E; [|now destruct Hg].
    destruct (Main.truth qt last); [discriminate|].
    cbn [snd]. now rewrite E.
  - unfold Main.mouseReleaseEvent, exec.
    now destruct (Main.is_left (Main.button e)).
Qed.

Lemma Main_last_after_events (evs : list Main.QEvent) :
  forall g : Main.InfiniteGrid,
    (Main.last_mouse_pos g <> None \/ existsb Main.is_left_press evs = true) ->
    Main.last_mouse_pos (Main.deliver_all qt g evs) <> None.
Proof.
  induction evs as [|ev evs IH]; intros g H.
  - destruct H as [H | H]; [exact H | discriminate H].
  - cbn [Main.deliver_all fold_left]. apply IH.
    destruct H as [H | H].
    + left. now apply Main_deliver_keeps_last.
    + cbn in H. apply orb_prop in H as [H | H]; [left | now right].
      destruct ev as [e|e|e|e]; try discriminate H. cbn in H.
      unfold Main.deliver, exec. cbn [Main.handle]. unfold Main.mousePressEvent.
      rewrite H. discriminate.
Qed.

(** The view zoom follows the scale factor. *)
Lemma Main_deliver_zoom (g : Main.InfiniteGrid) (ev : Main.QEvent) :
  Main.zoom g = Main.scale_factor g ->
  Main.zoom (Main.deliver qt g ev) = Main.scale_factor (Main.deliver qt g ev).
Proof.
  intros Hg. unfold Main.deliver. destruct ev as [e|e|e|e]; cbn [Main.handle].
  - pose proof (wheelEvent_run e g) as R. cbv zeta in R.
    destruct (_ && _).
    + destruct R as (ls & ->). cbn. now rewrite Hg.
    + unfold exec. now rewrite R.
  - unfold Main.mousePressEvent, exec.
    now destruct (Main.is_left (Main.button e)).
  - unfold exec. rewrite mouseMoveEvent_run.
    destruct (existsb Main.is_left (Main.buttons e)); [|exact Hg].
    destruct (Main.last_mouse_pos g) as [last|]; [|exact Hg].
    now destruct (Main.truth qt last).
  - unfold Main.mouseReleaseEvent, exec.
    now destruct (Main.is_left (Main.button e)).
Qed.

End CanvasFrames.

(** X8: redrawing the grid replaces the lines instead of piling them up.
    In both prototypes [draw_grid] gives the same outcome and the same
    lines whatever lines were there before, so that drawing twice is
    drawing once. *)
Theorem draw_grid_replaces_lines :
  (forall (g : Mainport.InfiniteGrid) (ls : list Mainport.Line),
     Mainport.draw_grid (Mainport.set_items ls g) = Mainport.draw_grid g /\
     Mainport.draw_grid (Py.exec Mainport.draw_grid g) = Mainport.draw_grid g) /\
  (forall (g : Main.InfiniteGrid) (ls : list Main.QLineF),
     Main.draw_grid (Main.set_lines ls g) = Main.draw_grid g /\
     Main.draw_grid (Py.exec Main.draw_grid g) = Main.draw_grid g).
Proof.
  split; intros g ls; (split; [reflexivity|]); unfold Py.exec.
  - destruct (draw_grid_run g) as (r & ls' & E). rewrite E at 1. cbn [snd].
    apply Mainport_draw_grid_forgets_items.
  - destruct (Main_draw_grid_run g) as (r & ls' & E). rewrite E at 1. cbn [snd].
    apply Main_draw_grid_forgets_lines.
Qed.

(** X9: on the tkinter canvas a drag needs a press.  After the button
    is released, and likewise on a canvas just built, motion events change
    nothing at all until the next press. *)
Theorem motion_after_release_changes_nothing
  (g : Mainport.InfiniteGrid) (e : Mainport.Event)
  (moves : list Mainport.Event) (frame : nat) :
  Mainport.deliver_all (Mainport.deliver g (Mainport.ButtonRelease1, e))
    (map (pair Mainport.B1Motion) moves)
  = Mainport.deliver g (Mainport.ButtonRelease1, e) /\
  Mainport.deliver_all (Mainport.built frame)
    (map (pair Mainport.B1Motion) moves)
  = Mainport.built frame.
Proof.
  split; apply motion_without_press.
  - reflexivity.
  - destruct (built_attributes frame) as (ls & ->). reflexivity.
Qed.

(** X10: each handler of the tkinter canvas keeps to its own part of the
    state.  A wheel event leaves pan offsets, drag position and cursor
    alone; press, motion and release leave the scale factor alone; and no
    handler changes the zoom limits, the pan limits, the grid size or the
    master frame. *)
Theorem tkinter_handlers_keep_to_their_part
  (g : Mainport.InfiniteGrid) (b : Mainport.Binding) (e : Mainport.Event) :
  let g' := Mainport.deliver g (b, e) in
  (Mainport.max_scale_factor g', Mainport.min_scale_factor g',
   Mainport.pan_limit_x g', Mainport.pan_limit_y g',
   Mainport.grid_size g', Mainport.master g')
  = (Mainport.max_scale_factor g, Mainport.min_scale_factor g,
     Mainport.pan_limit_x g, Mainport.pan_limit_y g,
     Mainport.grid_size g, Mainport.master g) /\
  match b with
  | Mainport.MouseWheel =>
      (Mainport.pan_offset_x g', Mainport.pan_offset_y g',
       Mainport.last_mouse_pos g', Mainport.cursor g')
      = (Mainport.pan_offset_x g, Mainport.pan_offset_y g,
         Mainport.last_mouse_pos g, Mainport.cursor g)
  | Mainport.B1Motion =>
      (Mainport.scale_factor g', Mainport.cursor g')
      = (Mainport.scale_factor g, Mainport.cursor g)
  | Mainport.ButtonPress1 =>
      (Mainport.scale_factor g', Mainport.pan_offset_x g',
       Mainport.pan_offset_y g', Mainport.items g')
      = (Mainport.scale_factor g, Mainport.pan_offset_x g,
         Mainport.pan_offset_y g, Mainport.items g)
  | Mainport.ButtonRelease1 =>
      (Mainport.scale_factor g', Mainport.pan_offset_x g',
       Mainport.pan_offset_y g', Mainport.items g')
      = (Mainport.scale_factor g, Mainport.pan_offset_x g,
         Mainport.pan_offset_y g, Mainport.items g)
  end.
Proof.
  cbv zeta. unfold Mainport.deliver. cbn [fst snd].
  destruct b; cbn [Mainport.handler].
  - split; reflexivity.
  - pose proof (mouse_move_run e g) as R.
    destruct (Mainport.last_mouse_pos g) as [[last_x last_y]|].
    + cbv zeta in R. destruct R as (ls & [-> | ->]); split; reflexivity.
    + unfold Py.exec. rewrite R. split; reflexivity.
  - split; reflexivity.
  - pose proof (wheel_event_run e g) as R. cbv zeta in R.
    destruct (_ && _).
    + destruct R as (ls & ->). split; reflexivity.
    + unfold Py.exec. rewrite R. split; reflexivity.
Qed.

(** X11: on the PySide6 canvas the zoom applied to the view through
    [self.scale] always equals [scale_factor]: after any events on a
    canvas just built the two are the same number. *)
Theorem view_zoom_equals_scale_factor (qt : Main.Qt)
  (evs : list Main.QEvent) :
  Main.zoom (Main.deliver_all qt Main.built evs)
  = Main.scale_factor (Main.deliver_all qt Main.built evs).
Proof.
  assert (H : forall g, Main.zoom g = Main.scale_factor g ->
                Main.zoom (Main.deliver_all qt g evs)
                = Main.scale_factor (Main.deliver_all qt g evs)).
  { induction evs as [|ev evs IH]; intros g Hg; [exact Hg|].
    cbn [Main.deliver_all fold_left]. apply IH. now apply Main_deliver_zoom. }
  apply H. destruct Main_built_attributes as (ls & ->). reflexivity.
Qed.

(** X12: when [mouseMoveEvent] raises on the PySide6 canvas.  After any
    events on a canvas just built, a mouse move raises exactly when the
    left button is held and no left-button press has been delivered
    before; a release never makes it raise again, since it leaves
    [last_mouse_pos] in place. *)
Theorem mouse_move_raises_only_before_first_press (qt : Main.Qt)
  (evs : list Main.QEvent) (e : Main.QMouseEvent) :
  Py.raised (fst (Main.mouseMoveEvent qt e (Main.deliver_all qt Main.built evs)))
  = existsb Main.is_left (Main.buttons e)
    && negb (existsb Main.is_left_press evs).
Proof.
  rewrite mouseMoveEvent_run.
  destruct (existsb Main.is_left (Main.buttons e)); [|reflexivity].
  destruct (existsb Main.is_left_press evs) eqn:Hp.
  - pose proof (Main_last_after_events qt evs Main.built (or_intror Hp)) as H.
    destruct (Main.last_mouse_pos _) as [last|]; [|contradiction].
    now destruct (Main.truth qt last).
  - rewrite (deliver_all_no_left_press qt evs Main.built); [reflexivity| |exact Hp].
    destruct Main_built_attributes as (ls & ->). reflexivity.
Qed.
